(** * predictor-ingresos-ml: the handlers of [app.py]

    A shallow embedding of [src/app.py]: the start-up code of the module
    (credential loading, spreadsheet binding, model loading) and the three
    button handlers [predecir_y_guardar_sheets], [limpiar_datos] and
    [mostrar_datos_actuales].

    Python code that may raise runs in a state-and-exception monad.  The state
    is the world outside the process (the remote spreadsheet, the clock)
    together with the trace of the calls the process made.  Everything the
    module imports (gspread, joblib, the fitted scaler and model, [datetime],
    Python's [format]) is a field of the [Platform] record: the development
    assumes nothing about it beyond its type. *)

From Stdlib Require Import String Ascii List ZArith Bool Lia DecimalString.
Import ListNotations.
Open Scope string_scope.

Set Implicit Arguments.

(** ** Python exceptions *)

(** The classes the module names in an [except] clause or raises itself, and
    [OtherException] for every other subclass of [Exception]. *)
Inductive exn_class : Type :=
| SpreadsheetNotFound
| FileNotFoundError
| ValueError
| KeyError
| IndexError
| OtherException (name : string).

Record exn : Type := mkExn { exn_cls : exn_class; exn_msg : string }.

(** [str(e)] *)
Definition exn_str (e : exn) : string := exn_msg e.

Definition is_SpreadsheetNotFound (e : exn) : bool :=
  match exn_cls e with SpreadsheetNotFound => true | _ => false end.

Definition is_FileNotFoundError (e : exn) : bool :=
  match exn_cls e with FileNotFoundError => true | _ => false end.

(** [except Exception] *)
Definition is_Exception (e : exn) : bool := true.

Inductive outcome (A : Type) : Type :=
| Ret (a : A)
| Raise (e : exn).
Arguments Ret {A} a.
Arguments Raise {A} e.

(** ** Python values *)

(** What a number field of the form hands to the handler: an [int], a
    [float], or [None] when the field was emptied.  The handler's parameters
    carry no type: it takes all three. *)
Inductive pynum (F : Type) : Type :=
| PInt (z : Z)
| PFloat (f : F)
| PNone.
Arguments PInt {F} z.
Arguments PFloat {F} f.
Arguments PNone {F}.

(** The value is a number, not [None]. *)
Definition is_number {F : Type} (v : pynum F) : bool :=
  match v with
  | PNone => false
  | _ => true
  end.

(** A cell of a row given to [insert_row] or [update]: a string, or a value
    as above ([CNum PNone] is a cell holding [None]). *)
Inductive cell (F : Type) : Type :=
| CStr (s : string)
| CNum (n : pynum F).
Arguments CStr {F} s.
Arguments CNum {F} n.

(** ** The platform *)

Record Platform : Type := mkPlatform {
  json_t : Type;
  credentials_t : Type;
  client_t : Type;
  spreadsheet_t : Type;
  worksheet_t : Type;
  artifact_t : Type;
  ndarray_t : Type;
  float_t : Type;
  datetime_t : Type;
  World : Type;

  (* os, json, google.oauth2 *)
  os_getenv : string -> option string;
  json_loads : string -> outcome json_t;
  from_service_account_info : json_t -> list string -> outcome credentials_t;

  (* gspread *)
  gspread_authorize : credentials_t -> World -> outcome client_t * World;
  client_open : client_t -> string -> World -> outcome spreadsheet_t * World;
  client_create : client_t -> string -> World -> outcome spreadsheet_t * World;
  spreadsheet_sheet1 : spreadsheet_t -> World -> outcome worksheet_t * World;
  spreadsheet_id : spreadsheet_t -> string;
  spreadsheet_share :
    spreadsheet_t -> string -> string -> string -> World -> outcome unit * World;
  sheet_insert_row :
    worksheet_t -> list (cell float_t) -> nat -> World -> outcome unit * World;
  sheet_update :
    worksheet_t -> string -> list (list (cell float_t)) -> World ->
    outcome unit * World;
  sheet_row_values : worksheet_t -> nat -> World -> outcome (list string) * World;

  (* joblib, scikit-learn, numpy *)
  joblib_load : string -> outcome artifact_t;
  scaler_transform :
    artifact_t -> list (string * pynum float_t) -> outcome ndarray_t;
  model_predict : artifact_t -> ndarray_t -> outcome (list float_t);
  np_expm1 : float_t -> float_t;

  (* builtins and datetime *)
  float_eq_zero : float_t -> bool;
  py_format : pynum float_t -> string -> string;
  datetime_now : World -> datetime_t;
  strftime : datetime_t -> string -> string
}.

(** ** Calls the process makes, in order *)

Inductive event (P : Platform) : Type :=
| EvPrint (line : string)
| EvAuthorize
| EvOpen (name : string)
| EvCreate (name : string)
| EvSheet1
| EvShare (email perm_type role : string)
| EvInsertRow (sh : worksheet_t P) (row : list (cell (float_t P))) (index : nat)
| EvUpdate (sh : worksheet_t P) (range : string)
           (rows : list (list (cell (float_t P))))
| EvRowValues (sh : worksheet_t P) (row : nat)
| EvTransform (sc : artifact_t P) (frame : list (string * pynum (float_t P)))
| EvPredict (m : artifact_t P) (X : ndarray_t P).
Arguments EvPrint {P} line.
Arguments EvAuthorize {P}.
Arguments EvOpen {P} name.
Arguments EvCreate {P} name.
Arguments EvSheet1 {P}.
Arguments EvShare {P} email perm_type role.
Arguments EvInsertRow {P} sh row index.
Arguments EvUpdate {P} sh range rows.
Arguments EvRowValues {P} sh row.
Arguments EvTransform {P} sc frame.
Arguments EvPredict {P} m X.

Record state (P : Platform) : Type := mkState {
  world : World P;
  trace : list (event P)
}.
Arguments mkState {P} world trace.

(** ** The monad *)

Definition M (P : Platform) (A : Type) : Type := state P -> outcome A * state P.

Definition ret {P A} (a : A) : M P A := fun s => (Ret a, s).

Definition raise {P A} (e : exn) : M P A := fun s => (Raise e, s).

Definition bind {P A B} (m : M P A) (k : A -> M P B) : M P B :=
  fun s =>
    match m s with
    | (Ret a, s') => k a s'
    | (Raise e, s') => (Raise e, s')
    end.

(** [try: body except C as e: handler e], where [catches e] says whether [e]
    is an instance of [C].  An exception the clause does not name goes on. *)
Definition try_except {P A} (body : M P A) (catches : exn -> bool)
           (handler : exn -> M P A) : M P A :=
  fun s =>
    match body s with
    | (Ret a, s') => (Ret a, s')
    | (Raise e, s') => if catches e then handler e s' else (Raise e, s')
    end.

(** A pure library call that may raise. *)
Definition lift {P A} (r : outcome A) : M P A := fun s => (r, s).

Definition log {P} (ev : event P) : M P unit :=
  fun s => (Ret tt, mkState (world s) (trace s ++ [ev])).

(** A call into the world: logged, then answered by the platform. *)
Definition call {P A} (ev : event P) (f : World P -> outcome A * World P) : M P A :=
  fun s =>
    let (r, w') := f (world s) in
    (r, mkState w' (trace s ++ [ev])).

Definition print {P} (line : string) : M P unit := log (EvPrint line).

Declare Scope py_scope.
Delimit Scope py_scope with py.
Notation "x <- m ;; k" := (bind m (fun x => k))
  (at level 100, m at next level, right associativity) : py_scope.
Notation "' pat <- m ;; k" := (bind m (fun x => match x with pat => k end))
  (at level 100, pat pattern, m at next level, right associativity) : py_scope.
Notation "m ;; k" := (bind m (fun _ => k))
  (at level 100, right associativity) : py_scope.
Open Scope py_scope.

(** ** The module *)

Section App.

Context (P : Platform).

Local Abbreviation num := (pynum (float_t P)).
Local Abbreviation row := (list (cell (float_t P))).

(** The module-level names the handlers read.  No handler assigns them: they
    are fixed once the module is loaded. *)
Record globals : Type := mkGlobals {
  gc : option (client_t P);
  spreadsheet : option (spreadsheet_t P);
  sheet : option (worksheet_t P);
  SHEET_URL : string;
  modelo : option (artifact_t P);
  scaler : option (artifact_t P)
}.

(** *** 1. [setup_google_sheets] *)

Definition scopes : list string :=
  [ "https://www.googleapis.com/auth/spreadsheets";
    "https://www.googleapis.com/auth/drive" ].

Definition setup_google_sheets : M P (option (client_t P)) :=
  try_except
    (creds_json <-
       match os_getenv P "GOOGLE_SHEETS_CREDENTIALS" with
       | None | Some EmptyString =>
           raise (mkExn ValueError "No se encontraron credenciales de Google Sheets")
       | Some s => ret s
       end ;;
     creds_dict <- lift (json_loads P creds_json) ;;
     credentials <- lift (from_service_account_info P creds_dict scopes) ;;
     client <- call EvAuthorize (gspread_authorize P credentials) ;;
     ret (Some client))
    is_Exception
    (fun e =>
       print ("❌ Error configurando Google Sheets: " ++ exn_str e) ;;
       ret None).

(** *** 2. Binding the spreadsheet (lines 43-75) *)

Definition NOMBRE_HOJA : string := "Predicciones_Ingresos_ML".

Definition headers : row :=
  map CStr
    [ "Timestamp"; "Interacciones"; "Cantidad_Asesores"; "Promedio_Interacciones";
      "Cumplimiento_Meta"; "Participacion"; "Promedio_Matriculas";
      "Crecimiento_Mensual"; "Crecimiento_Anual"; "Interacciones_por_Asesor";
      "Matriculas_por_Asesor"; "Ingreso_Estimado" ].

(** [[""] + [0] * 10 + [""]] *)
Definition fila_datos : row :=
  [CStr ""] ++ repeat (CNum (PInt 0)) 10 ++ [CStr ""].

(** The body of the clause [except gspread.SpreadsheetNotFound]. *)
Definition crear_hoja (client : client_t P)
  : M P (spreadsheet_t P * worksheet_t P) :=
  sp <- call (EvCreate NOMBRE_HOJA) (client_create P client NOMBRE_HOJA) ;;
  sh <- call EvSheet1 (spreadsheet_sheet1 P sp) ;;
  print ("✅ Hoja creada: " ++ NOMBRE_HOJA) ;;
  call (EvInsertRow sh headers 1) (sheet_insert_row P sh headers 1) ;;
  call (EvInsertRow sh fila_datos 2) (sheet_insert_row P sh fila_datos 2) ;;
  call (EvShare "" "anyone" "reader")
       (spreadsheet_share P sp "" "anyone" "reader") ;;
  ret (sp, sh).

(** The [try] statement under [if gc:]. *)
Definition open_or_create (client : client_t P)
  : M P (spreadsheet_t P * worksheet_t P) :=
  try_except
    (sp <- call (EvOpen NOMBRE_HOJA) (client_open P client NOMBRE_HOJA) ;;
     sh <- call EvSheet1 (spreadsheet_sheet1 P sp) ;;
     print ("✅ Conectado a la hoja existente: " ++ NOMBRE_HOJA) ;;
     ret (sp, sh))
    is_SpreadsheetNotFound
    (fun _ => crear_hoja client).

(** The whole [if gc: ... else: ...] statement: the values it leaves in
    [spreadsheet], [sheet] and [SHEET_URL]. *)
Definition bind_spreadsheet (g : option (client_t P))
  : M P (option (spreadsheet_t P) * option (worksheet_t P) * string) :=
  match g with
  | Some client =>
      '(sp, sh) <- open_or_create client ;;
      let url := "https://docs.google.com/spreadsheets/d/" ++ spreadsheet_id P sp in
      print ("📋 URL de Google Sheet: " ++ url) ;;
      ret (Some sp, Some sh, url)
  | None => ret (None, None, "No configurado")
  end.

(** *** 3. Loading the model and the scaler (lines 78-86) *)

Definition load_models : M P (option (artifact_t P) * option (artifact_t P)) :=
  print "🤖 Cargando modelos ML..." ;;
  try_except
    (m <- lift (joblib_load P "modelo_gradient_boosting_tuned.pkl") ;;
     sc <- lift (joblib_load P "scaler_ingresos.pkl") ;;
     print "✅ Modelos cargados correctamente" ;;
     ret (Some m, Some sc))
    is_FileNotFoundError
    (fun e =>
       print ("❌ Error cargando modelos: " ++ exn_str e) ;;
       ret (None, None)).

(** Sections 1 to 3 of the module, in order.  The interface the module
    builds after them reads these names and assigns none of them. *)
Definition module_init : M P globals :=
  client <- setup_google_sheets ;;
  '(sp, sh, url) <- bind_spreadsheet client ;;
  '(m, sc) <- load_models ;;
  ret (mkGlobals client sp sh url m sc).

(** *** 4. [variables_modelo] *)

Definition variables_modelo : list string :=
  [ "Interacciones";
    "Cantidad Asesores";
    "Promedio Interacciones";
    "% Cumplimiento Meta";
    "Participación %";
    "Promedio Matrículas";
    "Crecimiento mensual %";
    "Crecimiento interanual %";
    "Interacciones por asesor";
    "Matrículas por asesor" ].

(** *** 5. [predecir_y_guardar_sheets] *)

(** The ten arguments of the handler, under the names of its parameters. *)
Record inputs : Type := mkInputs {
  interacciones : num;
  asesores : num;
  prom_interacciones : num;
  cumplimiento : num;
  participacion : num;
  prom_matriculas : num;
  crec_mensual : num;
  crec_anual : num;
  interacciones_por_asesor : num;
  matriculas_por_asesor : num
}.

(** [valor == 0]; [None == 0] is [False]. *)
Definition num_eq_zero (v : num) : bool :=
  match v with
  | PInt z => Z.eqb z 0
  | PFloat f => float_eq_zero P f
  | PNone => false
  end.

(** The dict [data_input], in insertion order. *)
Definition data_input (i : inputs) : list (string * num) :=
  [ ("Interacciones", interacciones i);
    ("Cantidad Asesores", asesores i);
    ("Promedio Interacciones", prom_interacciones i);
    ("% Cumplimiento Meta", cumplimiento i);
    ("Participación %", participacion i);
    ("Promedio Matrículas", prom_matriculas i);
    ("Crecimiento mensual %", crec_mensual i);
    ("Crecimiento interanual %", crec_anual i);
    ("Interacciones por asesor", interacciones_por_asesor i);
    ("Matrículas por asesor", matriculas_por_asesor i) ].

(** [all(valor == 0 for valor in data_input.values())] *)
Definition all_zero (i : inputs) : bool :=
  forallb num_eq_zero (map snd (data_input i)).

Fixpoint dict_get (d : list (string * num)) (k : string) : option num :=
  match d with
  | [] => None
  | (k', v) :: d' => if String.eqb k' k then Some v else dict_get d' k
  end.

(** [df[cols]] on the one-row frame [pd.DataFrame([d])]: the columns named by
    [cols], in the order of [cols]; a name that is no column is a [KeyError]. *)
Fixpoint df_select (d : list (string * num)) (cols : list string)
  : outcome (list (string * num)) :=
  match cols with
  | [] => Ret []
  | c :: cs =>
      match dict_get d c with
      | None => Raise (mkExn KeyError c)
      | Some v =>
          match df_select d cs with
          | Ret r => Ret ((c, v) :: r)
          | Raise e => Raise e
          end
      end
  end.

(** [seq[i]]; the text of the [IndexError] is the interpreter's. *)
Definition getitem {A : Type} (l : list A) (i : nat) : outcome A :=
  match nth_error l i with
  | Some a => Ret a
  | None => Raise (mkExn IndexError "index out of range")
  end.

Definition TIMESTAMP_FORMAT : string := "%Y-%m-%d %H:%M:%S".

(** [datetime.datetime.now().strftime(fmt)] *)
Definition now_strftime (fmt : string) : M P string :=
  fun s => (Ret (strftime P (datetime_now P (world s)) fmt), s).

(** [f"{ingreso_estimado:,.0f}"] *)
Definition format_ingreso (ingreso_estimado : float_t P) : string :=
  py_format P (PFloat ingreso_estimado) ",.0f".

Definition fila_actualizada (timestamp : string) (i : inputs)
           (ingreso_estimado : float_t P) : row :=
  [ CStr timestamp;
    CNum (interacciones i);
    CNum (asesores i);
    CNum (prom_interacciones i);
    CNum (cumplimiento i);
    CNum (participacion i);
    CNum (prom_matriculas i);
    CNum (crec_mensual i);
    CNum (crec_anual i);
    CNum (interacciones_por_asesor i);
    CNum (matriculas_por_asesor i);
    CStr (format_ingreso ingreso_estimado) ].

Definition MSG_MODELOS_NO_DISPONIBLES : string :=
  "❌ Error: Modelos ML no están disponibles".

Definition MSG_VALORES_VALIDOS : string :=
  "⚠️ Por favor ingrese valores válidos (no todos pueden ser 0)".

Definition MSG_NO_CONFIGURADO : string := "⚠️ Google Sheets no configurado".

Definition STATUS_GUARDADO : string := "✅ **Datos guardados en Google Sheets**".

(** The f-string [resultado] of the prediction handler. *)
Definition resultado_prediccion (g : globals) (i : inputs)
           (ingreso_estimado : float_t P) (sheets_status timestamp : string)
  : string :=
  "
🎯 **PREDICCIÓN COMPLETADA**

💰 **Ingreso Estimado: $" ++ format_ingreso ingreso_estimado ++ "**

📊 **Datos utilizados:**
• Interacciones: " ++ py_format P (interacciones i) "," ++ "
• Asesores: " ++ py_format P (asesores i) "" ++ "
• Promedio Interacciones: " ++ py_format P (prom_interacciones i) "" ++ "
• % Cumplimiento: " ++ py_format P (cumplimiento i) "" ++ "%
• Participación: " ++ py_format P (participacion i) "" ++ "%

" ++ sheets_status ++ "
📅 Timestamp: " ++ timestamp ++ "

🔗 **[Ver Google Sheet](" ++ SHEET_URL g ++ ")**
        ".

(** Evaluating that f-string.  [{interacciones:,}] is the one field with a
    format spec on an input, and [None] takes none: [format(None, ",")] is a
    [TypeError].  The fields without a spec format [None] as any value. *)
Definition fstring_resultado (g : globals) (i : inputs)
           (ingreso_estimado : float_t P) (sheets_status timestamp : string)
  : outcome string :=
  match interacciones i with
  | PNone =>
      Raise (mkExn (OtherException "TypeError")
                   "unsupported format string passed to NoneType.__format__")
  | _ => Ret (resultado_prediccion g i ingreso_estimado sheets_status timestamp)
  end.

(** The statement [if sheet is not None: try: ... except ... else: ...]: the
    value it leaves in [sheets_status]. *)
Definition guardar_fila (g : globals) (fila : row) : M P string :=
  match sheet g with
  | Some sh =>
      try_except
        (call (EvUpdate sh "A2:L2" [fila]) (sheet_update P sh "A2:L2" [fila]) ;;
         ret STATUS_GUARDADO)
        is_Exception
        (fun e => ret ("⚠️ Error guardando en Sheets: " ++ exn_str e))
  | None => ret MSG_NO_CONFIGURADO
  end.

Definition predecir_y_guardar_sheets (g : globals) (i : inputs) : M P string :=
  try_except
    (match modelo g, scaler g with
     | Some m, Some sc =>
         if all_zero i then ret MSG_VALORES_VALIDOS
         else
           df <- lift (df_select (data_input i) variables_modelo) ;;
           log (EvTransform sc df) ;;
           X_scaled <- lift (scaler_transform P sc df) ;;
           log (EvPredict m X_scaled) ;;
           y_pred_log <- lift (model_predict P m X_scaled) ;;
           y0 <- lift (getitem y_pred_log 0) ;;
           let ingreso_estimado := np_expm1 P y0 in
           timestamp <- now_strftime TIMESTAMP_FORMAT ;;
           sheets_status <-
             guardar_fila g (fila_actualizada timestamp i ingreso_estimado) ;;
           resultado <-
             lift (fstring_resultado g i ingreso_estimado sheets_status timestamp) ;;
           ret resultado
     | _, _ => ret MSG_MODELOS_NO_DISPONIBLES
     end)
    is_Exception
    (fun e =>
       let error_msg := "❌ Error en predicción: " ++ exn_str e in
       print error_msg ;;
       ret error_msg).

(** *** 6. [limpiar_datos] *)

(** [[timestamp] + [0] * 10 + [""]] *)
Definition fila_limpia (timestamp : string) : row :=
  [CStr timestamp] ++ repeat (CNum (PInt 0)) 10 ++ [CStr ""].

Definition limpiar_datos (g : globals) : M P string :=
  match sheet g with
  | None => ret MSG_NO_CONFIGURADO
  | Some sh =>
      try_except
        (timestamp <- now_strftime TIMESTAMP_FORMAT ;;
         call (EvUpdate sh "A2:L2" [fila_limpia timestamp])
              (sheet_update P sh "A2:L2" [fila_limpia timestamp]) ;;
         ret "✅ Datos limpiados correctamente en Google Sheets")
        is_Exception
        (fun e => ret ("❌ Error limpiando datos: " ++ exn_str e))
  end.

(** *** 7. [mostrar_datos_actuales] *)

Definition MSG_NO_HAY_DATOS : string := "⚠️ No hay datos en Google Sheets aún".

(** The f-string [resultado] of the display handler, given the twelve values
    it reads out of [valores]. *)
Definition resultado_datos (url : string)
           (v0 v1 v2 v3 v4 v5 v6 v7 v8 v9 v10 v11 : string) : string :=
  "
📊 **DATOS ACTUALES EN GOOGLE SHEETS**

📅 Última actualización: " ++ v0 ++ "
🔢 Interacciones: " ++ v1 ++ "
👥 Asesores: " ++ v2 ++ "
📈 Promedio Interacciones: " ++ v3 ++ "
🎯 % Cumplimiento: " ++ v4 ++ "%
📊 Participación: " ++ v5 ++ "%
📋 Promedio Matrículas: " ++ v6 ++ "
📈 Crecimiento Mensual: " ++ v7 ++ "%
📈 Crecimiento Anual: " ++ v8 ++ "%
👤 Interacciones/Asesor: " ++ v9 ++ "
🎓 Matrículas/Asesor: " ++ v10 ++ "

💰 **RESULTADO ACTUAL: " ++ v11 ++ "**

🔗 **[Ver Google Sheet](" ++ url ++ ")**
            ".

Definition mostrar_datos_actuales (g : globals) : M P string :=
  match sheet g with
  | None => ret MSG_NO_CONFIGURADO
  | Some sh =>
      try_except
        (valores <- call (EvRowValues sh 2) (sheet_row_values P sh 2) ;;
         if Nat.leb 12 (List.length valores) then
           v0 <- lift (getitem valores 0) ;;
           v1 <- lift (getitem valores 1) ;;
           v2 <- lift (getitem valores 2) ;;
           v3 <- lift (getitem valores 3) ;;
           v4 <- lift (getitem valores 4) ;;
           v5 <- lift (getitem valores 5) ;;
           v6 <- lift (getitem valores 6) ;;
           v7 <- lift (getitem valores 7) ;;
           v8 <- lift (getitem valores 8) ;;
           v9 <- lift (getitem valores 9) ;;
           v10 <- lift (getitem valores 10) ;;
           v11 <- lift (getitem valores 11) ;;
           ret (resultado_datos (SHEET_URL g) v0 v1 v2 v3 v4 v5 v6 v7 v8 v9 v10 v11)
         else ret MSG_NO_HAY_DATOS)
        is_Exception
        (fun e => ret ("❌ Error leyendo datos: " ++ exn_str e))
  end.

End App.

(** * A simulated platform

    One instance of [Platform] on which the handlers run to the end: a
    spreadsheet service kept in memory, whole numbers for floats, a counter
    for the clock.  It serves to run the module on concrete inputs. *)

Module Sim.

(** What is fixed when the process starts: the credential variable and the
    artifact files that are on disk. *)
Record config : Type := mkConfig {
  env_credentials : option string;
  has_model_file : bool;
  has_scaler_file : bool
}.

(** The service: whether it answers, whether it lets a spreadsheet be
    created, whether the named spreadsheet exists, the rows of its first
    sheet as text, and the clock. *)
Record sworld : Type := mkWorld {
  online : bool;
  can_create : bool;
  present : bool;
  rows : list (list string);
  clock : nat
}.

Definition api_error : exn :=
  mkExn (OtherException "APIError") "service unavailable".

Definition not_found : exn := mkExn SpreadsheetNotFound "".

Definition no_such_file (file : string) : exn :=
  mkExn FileNotFoundError ("[Errno 2] No such file or directory: " ++ file).

Definition decimal (z : Z) : string := NilZero.string_of_int (Z.to_int z).

(** A comma after every third digit, on the digits in reverse. *)
Fixpoint group3 (rev_digits : list ascii) : list ascii :=
  match rev_digits with
  | a :: b :: c :: ((_ :: _) as more) => a :: b :: c :: ","%char :: group3 more
  | l => l
  end.

Definition grouped (z : Z) : string :=
  let body :=
    string_of_list_ascii
      (rev (group3 (rev (list_ascii_of_string (decimal (Z.abs z)))))) in
  if Z.ltb z 0 then "-" ++ body else body.

(** The number behind a value; the scaler takes a missing one as zero. *)
Definition value (n : pynum Z) : Z :=
  match n with PInt z => z | PFloat f => f | PNone => 0%Z end.

(** [format(n, spec)] for the specs the module uses: [","] and [",.0f"]
    group the digits, the empty spec does not. *)
Definition format (n : pynum Z) (spec : string) : string :=
  match n with
  | PNone => "None"
  | _ => if String.eqb spec "" then decimal (value n) else grouped (value n)
  end.

Definition cell_text (c : cell Z) : string :=
  match c with
  | CStr s => s
  | CNum PNone => ""
  | CNum n => format n ""
  end.

Fixpoint set_row (k : nat) (r : list string) (rs : list (list string))
  : list (list string) :=
  match k, rs with
  | O, [] => [r]
  | O, _ :: rest => r :: rest
  | S k', [] => [] :: set_row k' r []
  | S k', r0 :: rest => r0 :: set_row k' r rest
  end.

Definition insert_at (k : nat) (r : list string) (rs : list (list string))
  : list (list string) :=
  firstn k rs ++ [r] ++ skipn k rs.

(** A call to the service: [api_error] when it does not answer. *)
Definition service {A : Type} (f : sworld -> outcome A * sworld) (w : sworld)
  : outcome A * sworld :=
  if online w then f w else (Raise api_error, w).

Definition with_rows (w : sworld) (rs : list (list string)) : sworld :=
  mkWorld (online w) (can_create w) (present w) rs (clock w).

Definition two_digits (n : nat) : string :=
  let d := decimal (Z.of_nat (n mod 60)) in
  if Nat.ltb (n mod 60) 10 then "0" ++ d else d.

Definition platform (cfg : config) : Platform :=
  {| json_t := string;
     credentials_t := string;
     client_t := unit;
     spreadsheet_t := unit;
     worksheet_t := unit;
     artifact_t := string;
     ndarray_t := list Z;
     float_t := Z;
     datetime_t := nat;
     World := sworld;

     os_getenv := fun name =>
       if String.eqb name "GOOGLE_SHEETS_CREDENTIALS"
       then env_credentials cfg else None;
     json_loads := fun text =>
       if String.prefix "{" text then Ret text
       else Raise (mkExn (OtherException "JSONDecodeError") "Expecting value");
     from_service_account_info := fun doc _ => Ret doc;

     gspread_authorize := fun _ w => (Ret tt, w);
     client_open := fun _ _ =>
       service (fun w => if present w then (Ret tt, w) else (Raise not_found, w));
     client_create := fun _ _ =>
       service (fun w =>
         if can_create w
         then (Ret tt, mkWorld (online w) (can_create w) true [] (clock w))
         else (Raise api_error, w));
     spreadsheet_sheet1 := fun _ => service (fun w => (Ret tt, w));
     spreadsheet_id := fun _ => "sim";
     spreadsheet_share := fun _ _ _ _ => service (fun w => (Ret tt, w));
     sheet_insert_row := fun _ r index =>
       service (fun w =>
         (Ret tt, with_rows w (insert_at (index - 1) (map cell_text r) (rows w))));
     sheet_update := fun _ _ rs =>
       service (fun w =>
         match rs with
         | [r] => (Ret tt, with_rows w (set_row 1 (map cell_text r) (rows w)))
         | _ => (Raise api_error, w)
         end);
     sheet_row_values := fun _ index =>
       service (fun w => (Ret (nth (index - 1) (rows w) []), w));

     joblib_load := fun file =>
       if String.eqb file "modelo_gradient_boosting_tuned.pkl"
       then if has_model_file cfg then Ret "model" else Raise (no_such_file file)
       else if String.eqb file "scaler_ingresos.pkl"
       then if has_scaler_file cfg then Ret "scaler" else Raise (no_such_file file)
       else Raise (no_such_file file);
     scaler_transform := fun _ frame => Ret (map (fun kv => value (snd kv)) frame);
     model_predict := fun _ X => Ret [Z.log2 (1 + fold_right Z.add 0%Z X)];
     np_expm1 := fun x => (2 ^ x - 1)%Z;

     float_eq_zero := fun f => Z.eqb f 0;
     py_format := format;
     datetime_now := clock;
     strftime := fun d _ => "2024-05-17 09:30:" ++ two_digits d
  |}.

(** Everything in place. *)
Definition cfg_full : config := mkConfig (Some "{}") true true.


(** The scaler file is not on disk. *)
Definition cfg_no_scaler : config := mkConfig (Some "{}") true false.

(** The handlers' globals once everything is bound. *)
Definition g_bound (cfg : config) : globals (platform cfg) :=
  mkGlobals (platform cfg) (Some tt) (Some tt) (Some tt)
            "https://docs.google.com/spreadsheets/d/sim"
            (Some "model") (Some "scaler").

(** The same without the artifacts. *)
Definition g_no_models (cfg : config) : globals (platform cfg) :=
  mkGlobals (platform cfg) (Some tt) (Some tt) (Some tt)
            "https://docs.google.com/spreadsheets/d/sim" None None.

(** The values the form starts with. *)
Definition i_default (cfg : config) : inputs (platform cfg) :=
  mkInputs (platform cfg)
    (PInt 1000) (PInt 5) (PInt 200) (PInt 85) (PInt 75)
    (PInt 50) (PInt 10) (PInt 15) (PInt 200) (PInt 10).

Definition i_zero (cfg : config) : inputs (platform cfg) :=
  mkInputs (platform cfg)
    (PInt 0) (PInt 0) (PInt 0) (PInt 0) (PInt 0)
    (PInt 0) (PInt 0) (PInt 0) (PInt 0) (PInt 0).

Definition header_text : list string :=
  [ "Timestamp"; "Interacciones"; "Cantidad_Asesores"; "Promedio_Interacciones";
    "Cumplimiento_Meta"; "Participacion"; "Promedio_Matriculas";
    "Crecimiento_Mensual"; "Crecimiento_Anual"; "Interacciones_por_Asesor";
    "Matriculas_por_Asesor"; "Ingreso_Estimado" ].

(** The service up, the spreadsheet there with its header row only. *)
Definition w_header_only : sworld := mkWorld true true true [header_text] 7.

(** The service down. *)
Definition w_offline : sworld := mkWorld false true true [header_text] 7.

(** The service up, no spreadsheet of that name, and none can be created. *)
Definition w_cannot_create : sworld := mkWorld true false false [] 7.

Definition start (cfg : config) (w : sworld) : state (platform cfg) :=
  mkState (P:=platform cfg) w [].

End Sim.

(** * The simulated platform with faults in the artifacts

    The platform of [Sim], with [joblib.load], the scaler and the model
    answering as told. *)

Module Faulty.

Definition platform (cfg : Sim.config)
           (load : string -> outcome string)
           (transform : string -> list (string * pynum Z) -> outcome (list Z))
           (predict : string -> list Z -> outcome (list Z)) : Platform :=
  let P0 := Sim.platform cfg in
  {| json_t := string;
     credentials_t := string;
     client_t := unit;
     spreadsheet_t := unit;
     worksheet_t := unit;
     artifact_t := string;
     ndarray_t := list Z;
     float_t := Z;
     datetime_t := nat;
     World := Sim.sworld;
     os_getenv := os_getenv P0;
     json_loads := json_loads P0;
     from_service_account_info := from_service_account_info P0;
     gspread_authorize := gspread_authorize P0;
     client_open := client_open P0;
     client_create := client_create P0;
     spreadsheet_sheet1 := spreadsheet_sheet1 P0;
     spreadsheet_id := spreadsheet_id P0;
     spreadsheet_share := spreadsheet_share P0;
     sheet_insert_row := sheet_insert_row P0;
     sheet_update := sheet_update P0;
     sheet_row_values := sheet_row_values P0;
     joblib_load := load;
     scaler_transform := transform;
     model_predict := predict;
     np_expm1 := np_expm1 P0;
     float_eq_zero := float_eq_zero P0;
     py_format := py_format P0;
     datetime_now := datetime_now P0;
     strftime := strftime P0
  |}.

(** A model file that is there and cannot be read back. *)
Definition unpickling_error : exn :=
  mkExn (OtherException "UnpicklingError") "invalid load key".

Definition broken_model_file : Platform :=
  platform Sim.cfg_full
    (fun _ => Raise unpickling_error)
    (scaler_transform (Sim.platform Sim.cfg_full))
    (model_predict (Sim.platform Sim.cfg_full)).

(** A scaler that refuses its input. *)
Definition feature_error : exn :=
  mkExn ValueError "Input contains NaN".

Definition refusing_scaler : Platform :=
  platform Sim.cfg_full
    (joblib_load (Sim.platform Sim.cfg_full))
    (fun _ _ => Raise feature_error)
    (model_predict (Sim.platform Sim.cfg_full)).

End Faulty.

(** * The simulated platform with a service that trims what it reads

    The platform of [Sim], with a row read back without its trailing empty
    cells, the way a values interface leaves them out. *)

Module Trimming.

Fixpoint drop_trailing_empty (l : list string) : list string :=
  match l with
  | [] => []
  | x :: rest =>
      match drop_trailing_empty rest with
      | [] => if String.eqb x "" then [] else [x]
      | rest' => x :: rest'
      end
  end.

Definition platform (cfg : Sim.config) : Platform :=
  let P0 := Sim.platform cfg in
  {| json_t := string;
     credentials_t := string;
     client_t := unit;
     spreadsheet_t := unit;
     worksheet_t := unit;
     artifact_t := string;
     ndarray_t := list Z;
     float_t := Z;
     datetime_t := nat;
     World := Sim.sworld;
     os_getenv := os_getenv P0;
     json_loads := json_loads P0;
     from_service_account_info := from_service_account_info P0;
     gspread_authorize := gspread_authorize P0;
     client_open := client_open P0;
     client_create := client_create P0;
     spreadsheet_sheet1 := spreadsheet_sheet1 P0;
     spreadsheet_id := spreadsheet_id P0;
     spreadsheet_share := spreadsheet_share P0;
     sheet_insert_row := sheet_insert_row P0;
     sheet_update := sheet_update P0;
     sheet_row_values := fun _ index =>
       Sim.service (fun w =>
         (Ret (drop_trailing_empty (nth (index - 1) (Sim.rows w) [])), w));
     joblib_load := joblib_load P0;
     scaler_transform := scaler_transform P0;
     model_predict := model_predict P0;
     np_expm1 := np_expm1 P0;
     float_eq_zero := float_eq_zero P0;
     py_format := py_format P0;
     datetime_now := datetime_now P0;
     strftime := strftime P0
  |}.

End Trimming.

(** * Properties *)

Section Properties.

Context (P : Platform).

Local Abbreviation num := (pynum (float_t P)).
Local Abbreviation row := (list (cell (float_t P))).

(** ** The vocabulary of the statements *)

(** The events that are calls into the world.  The others ([print], the
    scaler, the model) happen inside the process. *)
Definition is_call (ev : event P) : bool :=
  match ev with
  | EvPrint _ | EvTransform _ _ | EvPredict _ _ => false
  | _ => true
  end.

(** [adds Q m]: whatever the outcome, [m] only appends events to the trace,
    each of them satisfies [Q], and when none of them is a call into the world
    the world is as it was. *)
Definition adds {A} (Q : event P -> Prop) (m : M P A) : Prop :=
  forall s, exists evs,
    trace (snd (m s)) = (trace s ++ evs)%list
    /\ Forall Q evs
    /\ (existsb is_call evs = false -> world (snd (m s)) = world s).

Definition MODEL_FILE : string := "modelo_gradient_boosting_tuned.pkl".
Definition SCALER_FILE : string := "scaler_ingresos.pkl".

(** [joblib.load] finds no such file. *)
Definition artifact_missing (file : string) : Prop :=
  exists msg, joblib_load P file = Raise (mkExn FileNotFoundError msg).

(** Loading stops at a missing file: the model file is missing, or the model
    file loads and the scaler file is missing. *)
Definition artifact_file_missing : Prop :=
  artifact_missing MODEL_FILE
  \/ ((exists m, joblib_load P MODEL_FILE = Ret m) /\ artifact_missing SCALER_FILE).

(** The state in which the save step starts: the scaler and the model have
    been called, nothing else has happened. *)
Definition after_inference (s : state P) (sc m : artifact_t P)
           (frame : list (string * num)) (X : ndarray_t P) : state P :=
  mkState (world s) (trace s ++ [EvTransform sc frame; EvPredict m X]).

(** [sub] occurs in [s]. *)
Definition contains (sub s : string) : Prop :=
  exists pre post, s = pre ++ sub ++ post.


Definition MSG_LIMPIADOS : string :=
  "✅ Datos limpiados correctamente en Google Sheets".

(** The operations of the module: loading it, and its three handlers. *)
Inductive operation : Type :=
| OpInit
| OpPredecir (g : globals P) (i : inputs P)
| OpLimpiar (g : globals P)
| OpMostrar (g : globals P).

(** The state an operation leaves, whatever it returns or raises. *)
Definition run (op : operation) (s : state P) : state P :=
  match op with
  | OpInit => snd (module_init s)
  | OpPredecir g i => snd (predecir_y_guardar_sheets g i s)
  | OpLimpiar g => snd (limpiar_datos g s)
  | OpMostrar g => snd (mostrar_datos_actuales g s)
  end.

Definition timestamp_or_empty (c : string) : Prop :=
  c = "" \/ exists d, c = strftime P d "%Y-%m-%d %H:%M:%S".

Definition currency_or_empty (c : string) : Prop :=
  c = "" \/ exists f : float_t P, c = py_format P (PFloat f) ",.0f".

(** The ten inputs are numbers: no field was handed over as [None]. *)
Definition numeric (i : inputs P) : bool :=
  forallb is_number (map snd (data_input i)).

(** The ten values an operation puts in cells 1 to 10 of a row it writes at
    row 2: a prediction, its ten inputs as it was handed them, in the order
    of its parameters; any other operation, ten zeros. *)
Definition row2_values (op : operation) : list num :=
  match op with
  | OpPredecir _ i =>
      [ interacciones i; asesores i; prom_interacciones i; cumplimiento i;
        participacion i; prom_matriculas i; crec_mensual i; crec_anual i;
        interacciones_por_asesor i; matriculas_por_asesor i ]
  | _ => repeat (PInt 0) 10
  end.

(** The operation was handed numbers only.  Only a prediction is handed
    anything. *)
Definition numeric_inputs (op : operation) : bool :=
  match op with
  | OpPredecir _ i => numeric i
  | _ => true
  end.

(** Twelve cells: a string that is a timestamp or empty, the ten values of
    the operation, a string that is a formatted estimate or empty. *)
Definition row2_shape (op : operation) (r : row) : Prop :=
  List.length r = 12
  /\ exists c0 c11,
       r = (CStr c0 :: map CNum (row2_values op) ++ [CStr c11])%list
       /\ timestamp_or_empty c0
       /\ currency_or_empty c11.

(** A call of [op] that writes rows either inserts the header row at row 1,
    or puts one well-shaped row at row 2 (inserted there, or written over
    [A2:L2]).  Any other event writes no row. *)
Definition write_ok (op : operation) (ev : event P) : Prop :=
  match ev with
  | EvInsertRow _ r index =>
      (index = 1 /\ r = headers P) \/ (index = 2 /\ row2_shape op r)
  | EvUpdate _ range rows =>
      range = "A2:L2" /\ exists r, rows = [r] /\ row2_shape op r
  | _ => True
  end.

(** How the save step of a prediction may end. *)
Definition save_status (g : globals P) (status : string) : Prop :=
  match sheet g with
  | None => status = "⚠️ Google Sheets no configurado"
  | Some _ =>
      status = "✅ **Datos guardados en Google Sheets**"
      \/ exists e, status = "⚠️ Error guardando en Sheets: " ++ exn_str e
  end.

(** The messages the prediction handler may return, each with the
    condition under which it does. *)
Inductive prediction_outcome (g : globals P) (i : inputs P) : string -> Prop :=
| OutNoArtifacts :
    modelo g = None \/ scaler g = None ->
    prediction_outcome g i "❌ Error: Modelos ML no están disponibles"
| OutAllZero :
    modelo g <> None -> scaler g <> None -> all_zero i = true ->
    prediction_outcome g i
      "⚠️ Por favor ingrese valores válidos (no todos pueden ser 0)"
| OutError (e : exn) :
    modelo g <> None -> scaler g <> None -> all_zero i = false ->
    prediction_outcome g i ("❌ Error en predicción: " ++ exn_str e)
| OutResult (y : float_t P) (status timestamp : string) :
    modelo g <> None -> scaler g <> None -> all_zero i = false ->
    save_status g status ->
    prediction_outcome g i
      (resultado_prediccion g i (np_expm1 P y) status timestamp).

(** The calls into the world among the events [evs]. *)
Definition calls (evs : list (event P)) : list (event P) :=
  filter is_call evs.

(** ** Running the monad *)

Lemma bind_Ret {A B} (m : M P A) (k : A -> M P B) s a s' :
  m s = (Ret a, s') -> bind m k s = k a s'.
Proof. unfold bind; intros ->; reflexivity. Qed.

Lemma bind_Raise {A B} (m : M P A) (k : A -> M P B) s e s' :
  m s = (Raise e, s') -> bind m k s = (Raise e, s').
Proof. unfold bind; intros ->; reflexivity. Qed.

Lemma try_except_Ret {A} (body : M P A) catches handler s a s' :
  body s = (Ret a, s') -> try_except body catches handler s = (Ret a, s').
Proof. unfold try_except; intros ->; reflexivity. Qed.

Lemma try_except_caught {A} (body : M P A) catches handler s e s' :
  body s = (Raise e, s') -> catches e = true ->
  try_except body catches handler s = handler e s'.
Proof. unfold try_except; intros -> ->; reflexivity. Qed.

Lemma try_except_uncaught {A} (body : M P A) catches handler s e s' :
  body s = (Raise e, s') -> catches e = false ->
  try_except body catches handler s = (Raise e, s').
Proof. unfold try_except; intros -> ->; reflexivity. Qed.

Lemma call_eq {A} (ev : event P) (f : World P -> outcome A * World P) s r w' :
  f (world s) = (r, w') -> call ev f s = (r, mkState w' (trace s ++ [ev])).
Proof. unfold call; intros ->; reflexivity. Qed.

(** A handler under [except Exception] that cannot raise makes the whole
    statement return. *)
Lemma try_except_Exception_returns {A} (body : M P A) (handler : exn -> M P A) :
  (forall e s, exists a s', handler e s = (Ret a, s')) ->
  forall s, exists a s', try_except body is_Exception handler s = (Ret a, s').
Proof.
  intros Hh s. unfold try_except.
  destruct (body s) as [[a | e] s1]; simpl.
  - eauto.
  - apply Hh.
Qed.

(** ** What a computation adds to the trace *)

Lemma adds_ret {A} Q (a : A) : adds Q (ret a).
Proof. intros s; exists []; simpl; rewrite app_nil_r; auto. Qed.

Lemma adds_raise {A} Q e : adds Q (@raise P A e).
Proof. intros s; exists []; simpl; rewrite app_nil_r; auto. Qed.

Lemma adds_lift {A} Q (r : outcome A) : adds Q (lift r).
Proof. intros s; exists []; simpl; rewrite app_nil_r; auto. Qed.

Lemma adds_now_strftime Q fmt : adds Q (now_strftime (P:=P) fmt).
Proof. intros s; exists []; simpl; rewrite app_nil_r; auto. Qed.

Lemma adds_log (Q : event P -> Prop) ev : Q ev -> adds Q (log ev).
Proof. intros H s; exists [ev]; simpl; auto. Qed.

Lemma adds_print (Q : event P -> Prop) line :
  Q (EvPrint line) -> adds Q (print line).
Proof. apply adds_log. Qed.

Lemma adds_call {A} (Q : event P -> Prop) ev
      (f : World P -> outcome A * World P) :
  Q ev -> is_call ev = true -> adds Q (call ev f).
Proof.
  intros H Hc s; exists [ev]; unfold call.
  destruct (f (world s)); simpl. rewrite Hc; simpl.
  repeat split; auto. discriminate.
Qed.

Lemma adds_bind {A B} Q (m : M P A) (k : A -> M P B) :
  adds Q m -> (forall a, adds Q (k a)) -> adds Q (bind m k).
Proof.
  intros Hm Hk s. unfold bind.
  destruct (Hm s) as (evs & E & F & W).
  destruct (m s) as [[a | e] s1]; simpl in E, W.
  - destruct (Hk a s1) as (evs' & E' & F' & W').
    exists (evs ++ evs')%list; repeat split.
    + rewrite E', E, app_assoc; reflexivity.
    + apply Forall_app; auto.
    + rewrite existsb_app. intros H.
      apply orb_false_iff in H. destruct H as [H1 H2].
      rewrite W', W; auto.
  - exists evs; auto.
Qed.

Lemma adds_try_except {A} Q (body : M P A) catches handler :
  adds Q body -> (forall e, adds Q (handler e)) ->
  adds Q (try_except body catches handler).
Proof.
  intros Hb Hh s. unfold try_except.
  destruct (Hb s) as (evs & E & F & W).
  destruct (body s) as [[a | e] s1]; simpl in E, W.
  - exists evs; auto.
  - destruct (catches e).
    + destruct (Hh e s1) as (evs' & E' & F' & W').
      exists (evs ++ evs')%list; repeat split.
      * rewrite E', E, app_assoc; reflexivity.
      * apply Forall_app; auto.
      * rewrite existsb_app. intros H.
        apply orb_false_iff in H. destruct H as [H1 H2].
        rewrite W', W; auto.
    + exists evs; auto.
Qed.

Ltac adds_step :=
  first
    [ apply adds_ret | apply adds_raise | apply adds_lift
    | apply adds_now_strftime
    | apply adds_print | apply adds_log
    | apply adds_call
    | apply adds_bind; [ | intros ? ]
    | apply adds_try_except; [ | intros ? ] ].

(** ** Strings *)

Lemma append_assoc (a b c : string) : (a ++ b) ++ c = a ++ (b ++ c).
Proof. induction a as [ | ch a IH]; simpl; [ | rewrite IH ]; reflexivity. Qed.

Lemma modelos_msg_is_not_valores_msg :
  MSG_MODELOS_NO_DISPONIBLES <> MSG_VALORES_VALIDOS.
Proof. unfold MSG_MODELOS_NO_DISPONIBLES, MSG_VALORES_VALIDOS; discriminate. Qed.

(** ** The feature frame *)

(** The selection [df_input[variables_modelo]] never raises: it is the ten
    inputs under the ten names of [variables_modelo], in that order. *)
Lemma df_select_variables_modelo (i : inputs P) :
  df_select P (data_input i) variables_modelo
  = Ret (combine variables_modelo
           [ interacciones i; asesores i; prom_interacciones i; cumplimiento i;
             participacion i; prom_matriculas i; crec_mensual i; crec_anual i;
             interacciones_por_asesor i; matriculas_por_asesor i ]).
Proof. reflexivity. Qed.

(** ** The prediction handler without its artifacts *)

Lemma predecir_without_artifacts (g : globals P) (i : inputs P) (s : state P) :
  modelo g = None \/ scaler g = None ->
  predecir_y_guardar_sheets g i s = (Ret MSG_MODELOS_NO_DISPONIBLES, s).
Proof.
  intros H. unfold predecir_y_guardar_sheets, try_except.
  destruct (modelo g) as [m | ], (scaler g) as [sc | ];
    try reflexivity.
  destruct H; discriminate.
Qed.

(** C10: the availability check comes before the all-zero validation.  With
    the model or the scaler unavailable the handler returns the "models not
    available" message whatever the inputs, an all-zero submission included,
    and that message is not the validation warning; the handler returns the
    validation warning only when both artifacts are loaded. *)
Theorem availability_check_precedes_validation
        (g : globals P) (i : inputs P) (s : state P) :
  (modelo g = None \/ scaler g = None ->
   all_zero i = true ->
   predecir_y_guardar_sheets g i s = (Ret MSG_MODELOS_NO_DISPONIBLES, s)
   /\ MSG_MODELOS_NO_DISPONIBLES <> MSG_VALORES_VALIDOS)
  /\
  (forall s',
     predecir_y_guardar_sheets g i s = (Ret MSG_VALORES_VALIDOS, s') ->
     exists m sc, modelo g = Some m /\ scaler g = Some sc).
Proof.
  split.
  - intros H _. split.
    + apply predecir_without_artifacts; exact H.
    + exact modelos_msg_is_not_valores_msg.
  - intros s' E.
    destruct (modelo g) as [m | ] eqn:Em.
    + destruct (scaler g) as [sc | ] eqn:Esc.
      * exists m, sc; auto.
      * exfalso. rewrite predecir_without_artifacts in E by auto.
        apply modelos_msg_is_not_valores_msg. congruence.
    + exfalso. rewrite predecir_without_artifacts in E by auto.
      apply modelos_msg_is_not_valores_msg. congruence.
Qed.

(** C4, amended: with the model and the scaler both loaded, an all-zero
    submission returns the "enter valid values" warning, and the handler makes
    no call at all: the world and the trace are as before, so row 2 is not
    written. *)
Theorem all_zero_rejected_without_write
        (g : globals P) (i : inputs P) (s : state P) (m sc : artifact_t P) :
  modelo g = Some m ->
  scaler g = Some sc ->
  all_zero i = true ->
  predecir_y_guardar_sheets g i s = (Ret MSG_VALORES_VALIDOS, s).
Proof.
  intros Hm Hsc Hz.
  unfold predecir_y_guardar_sheets, try_except.
  rewrite Hm, Hsc, Hz. reflexivity.
Qed.

(** ** Loading the artifacts *)

Lemma load_models_missing (s : state P) :
  artifact_file_missing ->
  exists s', load_models s = (Ret (None, None), s').
Proof.
  unfold artifact_file_missing, artifact_missing, MODEL_FILE, SCALER_FILE.
  unfold load_models.
  unfold bind, try_except, print, log, lift, ret; simpl.
  intros [(msg & E1) | ((m & E1) & (msg & E2))].
  - rewrite E1; simpl. eauto.
  - rewrite E1, E2; simpl. eauto.
Qed.

(** C5: when loading meets a missing artifact file, the module leaves both
    [modelo] and [scaler] at [None]; and with both at [None] every call of the
    prediction handler, for every input and in every state, returns the
    "models not available" message and leaves the world and the trace as they
    were: no scaling, no inference, no row write. *)
Theorem missing_artifacts_disable_prediction :
  artifact_file_missing ->
  (forall s : state P, exists s', load_models s = (Ret (None, None), s'))
  /\ (forall (s : state P) g s',
        module_init s = (Ret g, s') -> modelo g = None /\ scaler g = None)
  /\ (forall g : globals P, modelo g = None -> scaler g = None ->
        forall i s,
          predecir_y_guardar_sheets g i s = (Ret MSG_MODELOS_NO_DISPONIBLES, s)).
Proof.
  intros Hmiss. split; [ | split ].
  - intros s; apply load_models_missing; exact Hmiss.
  - intros s g s' E. unfold module_init, bind in E.
    destruct (setup_google_sheets s) as [[client | e] s1];
      [ | discriminate ].
    destruct (bind_spreadsheet client s1) as [[[[sp sh] url] | e] s2];
      [ | discriminate ].
    destruct (load_models_missing s2 Hmiss) as (s3 & E3).
    rewrite E3 in E. simpl in E. inversion E; subst; simpl; auto.
  - intros g Hm _ i s. apply predecir_without_artifacts; auto.
Qed.

(** ** The prediction handler with its artifacts *)


(** With both artifacts loaded, an input that is not all zero and whose
    [interacciones] is a number, and a scaler and a model that answer, the
    handler reaches the save step with the estimate [expm1(y)], and returns
    the result message built from whatever status the save step leaves. *)
Lemma predecir_reaches_save
      (g : globals P) (i : inputs P) (s : state P) (m sc : artifact_t P)
      (X : ndarray_t P) (y : float_t P) (ys : list (float_t P))
      (status : string) (s2 : state P) :
  modelo g = Some m ->
  scaler g = Some sc ->
  all_zero i = false ->
  is_number (interacciones i) = true ->
  scaler_transform P sc (data_input i) = Ret X ->
  model_predict P m X = Ret (y :: ys) ->
  let timestamp := strftime P (datetime_now P (world s)) TIMESTAMP_FORMAT in
  guardar_fila g (fila_actualizada timestamp i (np_expm1 P y))
               (after_inference s sc m (data_input i) X) = (Ret status, s2) ->
  predecir_y_guardar_sheets g i s
  = (Ret (resultado_prediccion g i (np_expm1 P y) status timestamp), s2).
Proof.
  intros Hm Hsc Hz Hnum Ht Hp timestamp Hsave.
  unfold predecir_y_guardar_sheets.
  rewrite Hm, Hsc, Hz.
  apply try_except_Ret.
  unfold bind at 1. unfold lift at 1. rewrite df_select_variables_modelo.
  change (combine variables_modelo _) with (data_input i).
  unfold bind at 1. unfold log at 1.
  unfold bind at 1. unfold lift at 1. rewrite Ht.
  unfold bind at 1. unfold log at 1.
  unfold bind at 1. unfold lift at 1. rewrite Hp.
  unfold bind at 1. unfold lift at 1. unfold getitem; simpl nth_error.
  unfold bind at 1. unfold now_strftime at 1. cbv beta iota. simpl world.
  fold timestamp.
  unfold after_inference in Hsave. simpl trace.
  rewrite <- app_assoc; simpl app.
  erewrite bind_Ret by exact Hsave.
  unfold bind, lift, ret, fstring_resultado.
  destruct (interacciones i); [ reflexivity | reflexivity | discriminate Hnum ].
Qed.

Lemma numeric_interacciones (i : inputs P) :
  numeric i = true -> is_number (interacciones i) = true.
Proof.
  unfold numeric. simpl. intros H.
  apply andb_true_iff in H. tauto.
Qed.

(** C2: with the model, the scaler and the sheet available, an input of ten
    numbers that is not all zero, a scaler and a model that answer, and a row
    write that succeeds, the handler calls [update] once, on [A2:L2], with one row of
    twelve cells: the timestamp formatted from the clock at the call, the ten
    inputs in the order of the parameters, and [expm1] of the model's output
    on the scaled features formatted with [,.0f].  The features given to the
    scaler are the ten inputs under the names and in the order of
    [variables_modelo].  The world after the call is the one the write
    leaves. *)
Theorem prediction_overwrites_row2
        (g : globals P) (i : inputs P) (s : state P)
        (m sc : artifact_t P) (sh : worksheet_t P)
        (X : ndarray_t P) (y : float_t P) (ys : list (float_t P))
        (w' : World P) :
  modelo g = Some m ->
  scaler g = Some sc ->
  sheet g = Some sh ->
  numeric i = true ->
  all_zero i = false ->
  let features :=
    combine variables_modelo
      [ interacciones i; asesores i; prom_interacciones i; cumplimiento i;
        participacion i; prom_matriculas i; crec_mensual i; crec_anual i;
        interacciones_por_asesor i; matriculas_por_asesor i ] in
  scaler_transform P sc features = Ret X ->
  model_predict P m X = Ret (y :: ys) ->
  let timestamp := strftime P (datetime_now P (world s)) "%Y-%m-%d %H:%M:%S" in
  let fila : row :=
    [ CStr timestamp;
      CNum (interacciones i); CNum (asesores i); CNum (prom_interacciones i);
      CNum (cumplimiento i); CNum (participacion i); CNum (prom_matriculas i);
      CNum (crec_mensual i); CNum (crec_anual i);
      CNum (interacciones_por_asesor i); CNum (matriculas_por_asesor i);
      CStr (py_format P (PFloat (np_expm1 P y)) ",.0f") ] in
  sheet_update P sh "A2:L2" [fila] (world s) = (Ret tt, w') ->
  predecir_y_guardar_sheets g i s
  = (Ret (resultado_prediccion g i (np_expm1 P y) STATUS_GUARDADO timestamp),
     mkState w'
       (trace s ++ [ EvTransform sc features; EvPredict m X;
                     EvUpdate sh "A2:L2" [fila] ]))
  /\ List.length fila = 12.
Proof.
  intros Hm Hsc Hsh Hnum Hz features Ht Hp timestamp fila Hup.
  split; [ | reflexivity ].
  eapply predecir_reaches_save; eauto using numeric_interacciones.
  unfold guardar_fila. rewrite Hsh.
  apply try_except_Ret.
  erewrite bind_Ret.
  2:{ apply call_eq. simpl world. exact Hup. }
  unfold ret, after_inference; simpl trace.
  rewrite <- app_assoc. reflexivity.
Qed.

Lemma contains_prefix sub post : contains sub (sub ++ post).
Proof. exists "", post; reflexivity. Qed.

Lemma contains_app_r sub a t : contains sub t -> contains sub (a ++ t).
Proof.
  intros (pre & post & ->). exists (a ++ pre), post.
  rewrite append_assoc; reflexivity.
Qed.

(** [sub] right after the prefix [pre]. *)
Lemma contains_after pre sub s :
  (exists post, s = pre ++ sub ++ post) -> contains sub s.
Proof. intros (post & ->). exists pre, post; reflexivity. Qed.

(** C9: under the same conditions (ten numbers, not all zero, both artifacts
    and the sheet there, scaler and model answering), when the row write
    raises [e] the handler
    still returns the prediction message: it carries the estimate, and the
    failure is only the warning text in the place of the save status.
    Nothing is raised. *)
Theorem write_failure_is_only_a_warning
        (g : globals P) (i : inputs P) (s : state P)
        (m sc : artifact_t P) (sh : worksheet_t P)
        (X : ndarray_t P) (y : float_t P) (ys : list (float_t P))
        (e : exn) (w' : World P) :
  modelo g = Some m ->
  scaler g = Some sc ->
  sheet g = Some sh ->
  numeric i = true ->
  all_zero i = false ->
  scaler_transform P sc (data_input i) = Ret X ->
  model_predict P m X = Ret (y :: ys) ->
  let timestamp := strftime P (datetime_now P (world s)) TIMESTAMP_FORMAT in
  let fila := fila_actualizada timestamp i (np_expm1 P y) in
  sheet_update P sh "A2:L2" [fila] (world s) = (Raise e, w') ->
  let warning := "⚠️ Error guardando en Sheets: " ++ exn_str e in
  exists msg,
    predecir_y_guardar_sheets g i s
    = (Ret msg,
       mkState w'
         (trace s ++ [ EvTransform sc (data_input i); EvPredict m X;
                       EvUpdate sh "A2:L2" [fila] ]))
    /\ msg = resultado_prediccion g i (np_expm1 P y) warning timestamp
    /\ contains ("💰 **Ingreso Estimado: $"
                   ++ py_format P (PFloat (np_expm1 P y)) ",.0f" ++ "**") msg
    /\ contains warning msg.
Proof.
  intros Hm Hsc Hsh Hnum Hz Ht Hp timestamp fila Hup warning.
  eexists. split; [ | split; [ reflexivity | split ] ].
  - eapply predecir_reaches_save; eauto using numeric_interacciones.
    unfold guardar_fila. rewrite Hsh.
    erewrite try_except_caught; [ | | reflexivity ].
    2:{ erewrite bind_Raise; [ reflexivity | ].
        apply call_eq. simpl world. exact Hup. }
    unfold ret, after_inference; simpl trace.
    rewrite <- app_assoc. reflexivity.
  - unfold resultado_prediccion, format_ingreso.
    apply (contains_after "
🎯 **PREDICCIÓN COMPLETADA**

").
    eexists.
    rewrite (append_assoc "💰 **Ingreso Estimado: $").
    rewrite (append_assoc (py_format P (PFloat (np_expm1 P y)) ",.0f")).
    reflexivity.
  - unfold resultado_prediccion.
    do 13 apply contains_app_r.
    apply contains_prefix.
Qed.

(** ** Without credentials *)





(** ** The display handler *)

(** The handler never raises: a [None] sheet returns at once, and the rest
    is under [except Exception]. *)
Lemma mostrar_returns (g : globals P) (s : state P) :
  exists msg s', mostrar_datos_actuales g s = (Ret msg, s').
Proof.
  unfold mostrar_datos_actuales.
  destruct (sheet g) as [sh | ].
  - apply try_except_Exception_returns.
    intros e s0. unfold ret. eauto.
  - unfold ret. eauto.
Qed.

Lemma getitem_in_bounds {A} (l : list A) (n : nat) (d : A) :
  n < List.length l -> getitem l n = Ret (nth n l d).
Proof.
  intros H. unfold getitem.
  rewrite (nth_error_nth' l d H). reflexivity.
Qed.

(** What the handler returns once [row_values(2)] has answered. *)
Lemma mostrar_after_read (g : globals P) (s : state P) (sh : worksheet_t P)
      (valores : list string) (w' : World P) :
  sheet g = Some sh ->
  sheet_row_values P sh 2 (world s) = (Ret valores, w') ->
  mostrar_datos_actuales g s
  = (Ret (if Nat.leb 12 (List.length valores)
          then resultado_datos (SHEET_URL g)
                 (nth 0 valores "") (nth 1 valores "") (nth 2 valores "")
                 (nth 3 valores "") (nth 4 valores "") (nth 5 valores "")
                 (nth 6 valores "") (nth 7 valores "") (nth 8 valores "")
                 (nth 9 valores "") (nth 10 valores "") (nth 11 valores "")
          else MSG_NO_HAY_DATOS),
     mkState w' (trace s ++ [EvRowValues sh 2])).
Proof.
  intros Hsh Hread. unfold mostrar_datos_actuales. rewrite Hsh.
  apply try_except_Ret.
  erewrite bind_Ret by (apply call_eq; exact Hread).
  destruct (Nat.leb 12 (List.length valores)) eqn:Hlen; [ | reflexivity ].
  apply Nat.leb_le in Hlen.
  unfold bind, lift.
  rewrite !(fun n => @getitem_in_bounds _ valores n "") by lia.
  reflexivity.
Qed.

(** C8: when row 2 reads back with fewer than twelve cells (none at all
    included), the display handler returns the "no data" message.  It never
    raises, whatever the state.  It reads [valores[0]] to [valores[11]] only
    when there are at least twelve cells, so that every index is within the
    list. *)
Theorem short_row_shows_no_data (g : globals P) :
  (forall s sh valores w',
     sheet g = Some sh ->
     sheet_row_values P sh 2 (world s) = (Ret valores, w') ->
     List.length valores < 12 ->
     mostrar_datos_actuales g s
     = (Ret MSG_NO_HAY_DATOS, mkState w' (trace s ++ [EvRowValues sh 2])))
  /\ (forall s, exists msg s', mostrar_datos_actuales g s = (Ret msg, s'))
  /\ (forall s sh valores w',
        sheet g = Some sh ->
        sheet_row_values P sh 2 (world s) = (Ret valores, w') ->
        12 <= List.length valores ->
        (forall n, n < 12 -> getitem valores n = Ret (nth n valores ""))
        /\ mostrar_datos_actuales g s
           = (Ret (resultado_datos (SHEET_URL g)
                     (nth 0 valores "") (nth 1 valores "") (nth 2 valores "")
                     (nth 3 valores "") (nth 4 valores "") (nth 5 valores "")
                     (nth 6 valores "") (nth 7 valores "") (nth 8 valores "")
                     (nth 9 valores "") (nth 10 valores "") (nth 11 valores "")),
              mkState w' (trace s ++ [EvRowValues sh 2]))).
Proof.
  split; [ | split ].
  - intros s sh valores w' Hsh Hread Hlen.
    rewrite (mostrar_after_read g s Hsh Hread).
    apply Nat.leb_gt in Hlen. rewrite Hlen. reflexivity.
  - intros s. apply mostrar_returns.
  - intros s sh valores w' Hsh Hread Hlen. split.
    + intros n Hn. apply getitem_in_bounds. lia.
    + rewrite (mostrar_after_read g s Hsh Hread).
      apply Nat.leb_le in Hlen. rewrite Hlen. reflexivity.
Qed.

(** ** The clear handler *)

Lemma limpiar_writes (g : globals P) (s : state P) (sh : worksheet_t P)
      (w1 : World P) :
  sheet g = Some sh ->
  let timestamp := strftime P (datetime_now P (world s)) TIMESTAMP_FORMAT in
  sheet_update P sh "A2:L2" [fila_limpia P timestamp] (world s) = (Ret tt, w1) ->
  limpiar_datos g s
  = (Ret MSG_LIMPIADOS,
     mkState w1 (trace s ++ [EvUpdate sh "A2:L2" [fila_limpia P timestamp]])).
Proof.
  intros Hsh timestamp Hup. unfold limpiar_datos. rewrite Hsh.
  apply try_except_Ret.
  unfold bind at 1. unfold now_strftime at 1. cbv beta iota. fold timestamp.
  erewrite bind_Ret by (apply call_eq; exact Hup).
  reflexivity.
Qed.

(** C7, amended: with a sheet bound, a clear whose write succeeds writes the
    row [timestamp, 0 (ten times), ""] on [A2:L2] and returns its message.
    What the show that follows displays is what the service reads back.
    When the read returns those twelve cells, the show displays that
    timestamp, ten zero values and an empty estimate.  When the read returns
    the row without its trailing empty cell, eleven cells, the show returns
    the "no data" message. *)
Theorem clear_then_show
        (g : globals P) (s : state P) (sh : worksheet_t P) (w1 : World P) :
  sheet g = Some sh ->
  let timestamp := strftime P (datetime_now P (world s)) "%Y-%m-%d %H:%M:%S" in
  let fila : row :=
    [ CStr timestamp;
      CNum (PInt 0); CNum (PInt 0); CNum (PInt 0); CNum (PInt 0); CNum (PInt 0);
      CNum (PInt 0); CNum (PInt 0); CNum (PInt 0); CNum (PInt 0); CNum (PInt 0);
      CStr "" ] in
  sheet_update P sh "A2:L2" [fila] (world s) = (Ret tt, w1) ->
  let s1 := mkState w1 (trace s ++ [EvUpdate sh "A2:L2" [fila]]) in
  limpiar_datos g s
  = (Ret "✅ Datos limpiados correctamente en Google Sheets", s1)
  /\ (forall w2,
        sheet_row_values P sh 2 w1
        = (Ret [ timestamp; "0"; "0"; "0"; "0"; "0"; "0"; "0"; "0"; "0"; "0"; "" ],
           w2) ->
        mostrar_datos_actuales g s1
        = (Ret ("
📊 **DATOS ACTUALES EN GOOGLE SHEETS**

📅 Última actualización: " ++ timestamp ++ "
🔢 Interacciones: 0
👥 Asesores: 0
📈 Promedio Interacciones: 0
🎯 % Cumplimiento: 0%
📊 Participación: 0%
📋 Promedio Matrículas: 0
📈 Crecimiento Mensual: 0%
📈 Crecimiento Anual: 0%
👤 Interacciones/Asesor: 0
🎓 Matrículas/Asesor: 0

💰 **RESULTADO ACTUAL: **

🔗 **[Ver Google Sheet](" ++ SHEET_URL g ++ ")**
            "),
           mkState w2 (trace s1 ++ [EvRowValues sh 2])))
  /\ (forall w2,
        sheet_row_values P sh 2 w1
        = (Ret [ timestamp; "0"; "0"; "0"; "0"; "0"; "0"; "0"; "0"; "0"; "0" ],
           w2) ->
        mostrar_datos_actuales g s1
        = (Ret "⚠️ No hay datos en Google Sheets aún",
           mkState w2 (trace s1 ++ [EvRowValues sh 2]))).
Proof.
  intros Hsh timestamp fila Hup s1. split; [ | split ].
  - apply (limpiar_writes g s Hsh Hup).
  - intros w2 Hread.
    rewrite (mostrar_after_read g s1 Hsh Hread). reflexivity.
  - intros w2 Hread.
    rewrite (mostrar_after_read g s1 Hsh Hread). reflexivity.
Qed.

(** ** The rows the module writes *)

Lemma fila_datos_shape : row2_shape OpInit (fila_datos P).
Proof.
  split; [ reflexivity | ].
  do 2 eexists. split; [ reflexivity | ].
  split; left; reflexivity.
Qed.

Lemma fila_limpia_shape (g : globals P) (d : datetime_t P) :
  row2_shape (OpLimpiar g) (fila_limpia P (strftime P d TIMESTAMP_FORMAT)).
Proof.
  split; [ reflexivity | ].
  do 2 eexists. split; [ reflexivity | ].
  split; [ right; exists d | left ]; reflexivity.
Qed.

Lemma fila_actualizada_shape (g : globals P) (d : datetime_t P) (i : inputs P)
      (f : float_t P) :
  row2_shape (OpPredecir g i)
             (fila_actualizada (strftime P d TIMESTAMP_FORMAT) i f).
Proof.
  split; [ reflexivity | ].
  do 2 eexists. split; [ reflexivity | ].
  split; right; [ exists d | exists f ]; reflexivity.
Qed.

Ltac write_ok_side :=
  first
    [ exact I
    | reflexivity
    | left; split; reflexivity
    | right; split; [ reflexivity | apply fila_datos_shape ] ].

Lemma setup_adds_write_ok (op : operation) :
  adds (write_ok op) (setup_google_sheets (P:=P)).
Proof.
  unfold setup_google_sheets.
  destruct (os_getenv P "GOOGLE_SHEETS_CREDENTIALS") as [[ | c creds] | ];
    repeat (adds_step; try write_ok_side).
Qed.

Lemma crear_hoja_adds_write_ok (client : client_t P) :
  adds (write_ok OpInit) (crear_hoja client).
Proof. unfold crear_hoja. repeat (adds_step; try write_ok_side). Qed.

Lemma bind_spreadsheet_adds_write_ok (client : option (client_t P)) :
  adds (write_ok OpInit) (bind_spreadsheet client).
Proof.
  unfold bind_spreadsheet, open_or_create.
  destruct client as [client | ]; [ | apply adds_ret ].
  apply adds_bind.
  - apply adds_try_except.
    + repeat (adds_step; try write_ok_side).
    + intros _. apply crear_hoja_adds_write_ok.
  - intros [sp sh]. repeat (adds_step; try write_ok_side).
Qed.

Lemma load_models_adds_write_ok (op : operation) :
  adds (write_ok op) (load_models (P:=P)).
Proof. unfold load_models. repeat (adds_step; try write_ok_side). Qed.

Lemma module_init_adds_write_ok : adds (write_ok OpInit) (module_init (P:=P)).
Proof.
  unfold module_init.
  apply adds_bind; [ apply setup_adds_write_ok | intros client ].
  apply adds_bind; [ apply bind_spreadsheet_adds_write_ok | intros [[sp sh] url] ].
  apply adds_bind; [ apply load_models_adds_write_ok | intros [m sc] ].
  apply adds_ret.
Qed.

(** The timestamp a handler formats is [strftime] of some clock reading. *)
Lemma adds_bind_now {B} Q fmt (k : string -> M P B) :
  (forall d, adds Q (k (strftime P d fmt))) ->
  adds Q (bind (now_strftime fmt) k).
Proof. intros H s. unfold bind, now_strftime. apply H. Qed.

Lemma predecir_adds_write_ok (g : globals P) (i : inputs P) :
  adds (write_ok (OpPredecir g i)) (predecir_y_guardar_sheets g i).
Proof.
  unfold predecir_y_guardar_sheets.
  apply adds_try_except; [ | intros e; repeat (adds_step; try write_ok_side) ].
  destruct (modelo g) as [m | ], (scaler g) as [sc | ]; try apply adds_ret.
  destruct (all_zero i); [ apply adds_ret | ].
  do 6 (apply adds_bind; [ repeat (adds_step; try write_ok_side) | intros ? ]).
  apply adds_bind_now; intros d.
  apply adds_bind; [ | intros ?; repeat adds_step ].
  unfold guardar_fila. destruct (sheet g) as [sh | ]; [ | apply adds_ret ].
  apply adds_try_except; [ | intros ?; apply adds_ret ].
  apply adds_bind; [ | intros ?; apply adds_ret ].
  apply adds_call; [ | reflexivity ].
  split; [ reflexivity | ]. eexists; split; [ reflexivity | ].
  apply fila_actualizada_shape.
Qed.

Lemma limpiar_adds_write_ok (g : globals P) :
  adds (write_ok (OpLimpiar g)) (limpiar_datos g).
Proof.
  unfold limpiar_datos. destruct (sheet g) as [sh | ]; [ | apply adds_ret ].
  apply adds_try_except; [ | intros ?; apply adds_ret ].
  apply adds_bind_now; intros d.
  apply adds_bind; [ | intros ?; apply adds_ret ].
  apply adds_call; [ | reflexivity ].
  split; [ reflexivity | ]. eexists; split; [ reflexivity | ].
  apply fila_limpia_shape.
Qed.

Lemma mostrar_adds_write_ok (g : globals P) :
  adds (write_ok (OpMostrar g)) (mostrar_datos_actuales g).
Proof.
  unfold mostrar_datos_actuales.
  destruct (sheet g) as [sh | ]; [ | apply adds_ret ].
  apply adds_try_except; [ | intros ?; apply adds_ret ].
  apply adds_bind; [ apply adds_call; reflexivity | intros valores ].
  destruct (Nat.leb 12 (List.length valores));
    repeat (adds_step; try write_ok_side).
Qed.

(** C3, amended: whatever the operation (loading the module, which creates
    the sheet when it is not found, a prediction, a clear, a show) and
    whatever the state, the operation only appends calls to the trace, and
    each call that writes rows writes either the header row at row 1 or, at
    row 2, one row of exactly twelve cells: a string that is a timestamp or
    empty; the ten values of the operation, which are ten zeros for the
    creation and the clear and, for a prediction, its ten inputs as it was
    handed them, in order; and a string that is a formatted estimate or
    empty.  The ten values are numbers whenever the inputs are: a [None] is
    written only where the prediction was handed one. *)
Theorem every_row_write_has_twelve_cells (op : operation) (s : state P) :
  (exists evs,
     trace (run op s) = (trace s ++ evs)%list
     /\ Forall (write_ok op) evs)
  /\ List.length (row2_values op) = 10
  /\ (numeric_inputs op = true ->
      forall v, In v (row2_values op) -> is_number v = true).
Proof.
  split; [ | split ].
  - destruct op as [ | g i | g | g]; simpl.
    + destruct (module_init_adds_write_ok s) as (evs & E & F & _); eauto.
    + destruct (predecir_adds_write_ok g i s) as (evs & E & F & _); eauto.
    + destruct (limpiar_adds_write_ok g s) as (evs & E & F & _); eauto.
    + destruct (mostrar_adds_write_ok g s) as (evs & E & F & _); eauto.
  - destruct op; reflexivity.
  - intros Hnum v Hin.
    destruct op as [ | g i | g | g].
    + apply repeat_spec in Hin. subst v. reflexivity.
    + change (forallb is_number (row2_values (OpPredecir g i)) = true) in Hnum.
      rewrite forallb_forall in Hnum. apply Hnum. exact Hin.
    + apply repeat_spec in Hin. subst v. reflexivity.
    + apply repeat_spec in Hin. subst v. reflexivity.
Qed.

(** ** Binding the spreadsheet *)

Lemma open_or_create_open_fails (client : client_t P) (s : state P) e w1 :
  client_open P client NOMBRE_HOJA (world s) = (Raise e, w1) ->
  open_or_create client s
  = if is_SpreadsheetNotFound e
    then crear_hoja client (mkState w1 (trace s ++ [EvOpen NOMBRE_HOJA]))
    else (Raise e, mkState w1 (trace s ++ [EvOpen NOMBRE_HOJA])).
Proof.
  intros Hopen. unfold open_or_create, try_except.
  erewrite bind_Raise by (apply call_eq; exact Hopen).
  reflexivity.
Qed.

Lemma bind_spreadsheet_propagates (client : client_t P) (s : state P) e s' :
  open_or_create client s = (Raise e, s') ->
  bind_spreadsheet (Some client) s = (Raise e, s').
Proof. intros H. unfold bind_spreadsheet. apply bind_Raise. exact H. Qed.

(** Every step of the creation is outside any [try]: the first one that
    raises ends [crear_hoja] with that exception. *)
Lemma crear_hoja_failures (client : client_t P) (t : state P) :
  (forall e w2,
     client_create P client NOMBRE_HOJA (world t) = (Raise e, w2) ->
     fst (crear_hoja client t) = Raise e)
  /\ (forall sp w2 sh w3,
        client_create P client NOMBRE_HOJA (world t) = (Ret sp, w2) ->
        spreadsheet_sheet1 P sp w2 = (Ret sh, w3) ->
        (forall e w4,
           sheet_insert_row P sh (headers P) 1 w3 = (Raise e, w4) ->
           fst (crear_hoja client t) = Raise e)
        /\ (forall w4 e w5,
              sheet_insert_row P sh (headers P) 1 w3 = (Ret tt, w4) ->
              sheet_insert_row P sh (fila_datos P) 2 w4 = (Raise e, w5) ->
              fst (crear_hoja client t) = Raise e)
        /\ (forall w4 w5 e w6,
              sheet_insert_row P sh (headers P) 1 w3 = (Ret tt, w4) ->
              sheet_insert_row P sh (fila_datos P) 2 w4 = (Ret tt, w5) ->
              spreadsheet_share P sp "" "anyone" "reader" w5 = (Raise e, w6) ->
              fst (crear_hoja client t) = Raise e)).
Proof.
  unfold crear_hoja, bind, call, print, log, ret. simpl.
  split.
  - intros e w2 H1. rewrite H1. reflexivity.
  - intros sp w2 sh w3 H1 H2. rewrite H1; simpl. rewrite H2; simpl.
    split; [ | split ].
    + intros e w4 H3. rewrite H3. reflexivity.
    + intros w4 e w5 H3 H4. rewrite H3; simpl. rewrite H4. reflexivity.
    + intros w4 w5 e w6 H3 H4 H5.
      rewrite H3; simpl. rewrite H4; simpl. rewrite H5. reflexivity.
Qed.

(** C1, amended: binding the spreadsheet catches one failure only,
    [SpreadsheetNotFound] raised while opening, and answers it by creating
    the spreadsheet.  Any other exception raised while opening, and any
    exception raised while creating (by [create], by writing the header row
    or the zeroed data row, by [share]) leaves the binding uncaught and ends
    the loading of the module with that exception.  The disabled state
    (no sheet, URL "No configurado") is what the binding gives when there is
    no client, and only then: with a client, a binding that returns has
    bound a sheet. *)
Theorem binding_catches_only_not_found (client : client_t P) (s : state P) :
  bind_spreadsheet None s = (Ret (None, None, "No configurado"), s)
  /\ (forall sp sh url s',
        bind_spreadsheet (Some client) s = (Ret (sp, sh, url), s') ->
        sp <> None /\ sh <> None)
  /\ (forall e w1,
        client_open P client NOMBRE_HOJA (world s) = (Raise e, w1) ->
        let s1 := mkState w1 (trace s ++ [EvOpen NOMBRE_HOJA]) in
        (is_SpreadsheetNotFound e = false ->
         bind_spreadsheet (Some client) s = (Raise e, s1))
        /\ (is_SpreadsheetNotFound e = true ->
            open_or_create client s = crear_hoja client s1
            /\ forall e' s',
                 crear_hoja client s1 = (Raise e', s') ->
                 bind_spreadsheet (Some client) s = (Raise e', s')))
  /\ (forall s0 e s',
        setup_google_sheets s0 = (Ret (Some client), s) ->
        bind_spreadsheet (Some client) s = (Raise e, s') ->
        module_init s0 = (Raise e, s'))
  /\ (forall t : state P,
        (forall e w2,
           client_create P client NOMBRE_HOJA (world t) = (Raise e, w2) ->
           fst (crear_hoja client t) = Raise e)
        /\ (forall sp w2 sh w3,
              client_create P client NOMBRE_HOJA (world t) = (Ret sp, w2) ->
              spreadsheet_sheet1 P sp w2 = (Ret sh, w3) ->
              (forall e w4,
                 sheet_insert_row P sh (headers P) 1 w3 = (Raise e, w4) ->
                 fst (crear_hoja client t) = Raise e)
              /\ (forall w4 e w5,
                    sheet_insert_row P sh (headers P) 1 w3 = (Ret tt, w4) ->
                    sheet_insert_row P sh (fila_datos P) 2 w4 = (Raise e, w5) ->
                    fst (crear_hoja client t) = Raise e)
              /\ (forall w4 w5 e w6,
                    sheet_insert_row P sh (headers P) 1 w3 = (Ret tt, w4) ->
                    sheet_insert_row P sh (fila_datos P) 2 w4 = (Ret tt, w5) ->
                    spreadsheet_share P sp "" "anyone" "reader" w5
                    = (Raise e, w6) ->
                    fst (crear_hoja client t) = Raise e))).
Proof.
  split; [ reflexivity | ].
  split; [ | split; [ | split ] ].
  - intros sp sh url s' E. unfold bind_spreadsheet, bind in E.
    destruct (open_or_create client s) as [[[sp0 sh0] | e] s1];
      [ | discriminate ].
    unfold print, log, ret in E. simpl in E.
    inversion E; subst. split; discriminate.
  - intros e w1 Hopen s1. split.
    + intros Hcls. apply bind_spreadsheet_propagates.
      rewrite (open_or_create_open_fails client s Hopen), Hcls. reflexivity.
    + intros Hcls.
      assert (Eo : open_or_create client s = crear_hoja client s1).
      { rewrite (open_or_create_open_fails client s Hopen), Hcls. reflexivity. }
      split; [ exact Eo | ].
      intros e' s' Hc. apply bind_spreadsheet_propagates.
      rewrite Eo. exact Hc.
  - intros s0 e s' Hsetup Hbind. unfold module_init.
    erewrite bind_Ret by exact Hsetup.
    apply bind_Raise. exact Hbind.
  - intros t. apply crear_hoja_failures.
Qed.

(** ** More on the start-up code *)

(** X1: [setup_google_sheets] never raises.  It returns a client exactly
    when the variable is set and not empty, its value parses, the document
    is accepted as a service account and [authorize] answers; and every
    [None] it returns comes with the error printed as the last thing done. *)
Theorem setup_returns_client_iff_all_steps_succeed (s : state P) :
  exists r s',
    setup_google_sheets s = (Ret r, s')
    /\ (forall client,
          r = Some client <->
          exists creds doc credentials w',
            os_getenv P "GOOGLE_SHEETS_CREDENTIALS" = Some creds
            /\ creds <> ""
            /\ json_loads P creds = Ret doc
            /\ from_service_account_info P doc scopes = Ret credentials
            /\ gspread_authorize P credentials (world s) = (Ret client, w'))
    /\ (r = None ->
        exists e evs,
          trace s'
          = (trace s ++ evs
               ++ [EvPrint ("❌ Error configurando Google Sheets: " ++ exn_str e)])%list).
Proof.
  unfold setup_google_sheets, try_except, bind, lift, raise, call, print, log, ret.
  destruct (os_getenv P "GOOGLE_SHEETS_CREDENTIALS") as [creds | ] eqn:Eenv.
  - destruct creds as [ | c creds].
    + simpl. eexists; eexists; split; [ reflexivity | split ].
      * intros client; split; [ discriminate | ].
        intros (creds & doc & cr & w' & E & Hne & _).
        inversion E; subst. contradiction.
      * intros _.
        exists (mkExn ValueError "No se encontraron credenciales de Google Sheets").
        exists []. reflexivity.
    + simpl.
      destruct (json_loads P (String c creds)) as [doc | e] eqn:Ej; simpl.
      * destruct (from_service_account_info P doc scopes) as [cr | e] eqn:Ec;
          simpl.
        -- destruct (gspread_authorize P cr (world s)) as [[client | e] w1] eqn:Ea;
             simpl.
           ++ eexists; eexists; split; [ reflexivity | split ].
              ** intros client'; split.
                 --- intros H; inversion H; subst.
                     exists (String c creds), doc, cr, w1.
                     repeat split; auto. discriminate.
                 --- intros (creds' & doc' & cr' & w' & E & _ & Ej' & Ec' & Ea').
                     inversion E; subst.
                     rewrite Ej in Ej'; inversion Ej'; subst.
                     rewrite Ec in Ec'; inversion Ec'; subst.
                     rewrite Ea in Ea'; inversion Ea'; subst. reflexivity.
              ** discriminate.
           ++ eexists; eexists; split; [ reflexivity | split ].
              ** intros client; split; [ discriminate | ].
                 intros (creds' & doc' & cr' & w' & E & _ & Ej' & Ec' & Ea').
                 inversion E; subst.
                 rewrite Ej in Ej'; inversion Ej'; subst.
                 rewrite Ec in Ec'; inversion Ec'; subst.
                 rewrite Ea in Ea'; discriminate.
              ** intros _. exists e, [EvAuthorize]. simpl.
                 rewrite <- app_assoc. reflexivity.
        -- eexists; eexists; split; [ reflexivity | split ].
           ++ intros client; split; [ discriminate | ].
              intros (creds' & doc' & cr' & w' & E & _ & Ej' & Ec' & _).
              inversion E; subst.
              rewrite Ej in Ej'; inversion Ej'; subst.
              rewrite Ec in Ec'; discriminate.
           ++ intros _. exists e, []. reflexivity.
      * eexists; eexists; split; [ reflexivity | split ].
        -- intros client; split; [ discriminate | ].
           intros (creds' & doc' & cr' & w' & E & _ & Ej' & _).
           inversion E; subst. rewrite Ej in Ej'; discriminate.
        -- intros _. exists e, []. reflexivity.
  - simpl. eexists; eexists; split; [ reflexivity | split ].
    + intros client; split; [ discriminate | ].
      intros (creds & doc & cr & w' & E & _). discriminate.
    + intros _.
        exists (mkExn ValueError "No se encontraron credenciales de Google Sheets").
        exists []. reflexivity.
Qed.

Lemma bind_spreadsheet_bound (client : client_t P) (s : state P) sp sh url s' :
  bind_spreadsheet (Some client) s = (Ret (sp, sh, url), s') ->
  exists sp' sh',
    sp = Some sp' /\ sh = Some sh'
    /\ url = "https://docs.google.com/spreadsheets/d/" ++ spreadsheet_id P sp'.
Proof.
  intros E. unfold bind_spreadsheet, bind in E.
  destruct (open_or_create client s) as [[[sp0 sh0] | e] s1]; [ | discriminate ].
  unfold print, log, ret in E. simpl in E.
  inversion E; subst. exists sp0, sh0. auto.
Qed.

Lemma load_models_both_or_neither (s : state P) m sc s' :
  load_models s = (Ret (m, sc), s') ->
  (m = None /\ sc = None) \/ (exists m' sc', m = Some m' /\ sc = Some sc').
Proof.
  unfold load_models, bind, try_except, lift, print, log, ret. simpl.
  destruct (joblib_load P "modelo_gradient_boosting_tuned.pkl") as [m0 | e];
    simpl.
  - destruct (joblib_load P "scaler_ingresos.pkl") as [sc0 | e]; simpl.
    + intros E; inversion E; subst. right; eauto.
    + destruct (is_FileNotFoundError e); intros E; inversion E; subst.
      left; auto.
  - destruct (is_FileNotFoundError e); intros E; inversion E; subst.
    left; auto.
Qed.

(** X2: the names the module leaves are consistent.  Either there is no
    client, no spreadsheet and no sheet and the URL is "No configurado", or
    all three are there and the URL is that of the spreadsheet; and the model
    and the scaler are both loaded or both [None]. *)
Theorem module_init_globals_consistent (s : state P) (g : globals P) (s' : state P) :
  module_init s = (Ret g, s') ->
  ((gc g = None /\ spreadsheet g = None /\ sheet g = None
    /\ SHEET_URL g = "No configurado")
   \/ (exists client sp sh,
         gc g = Some client /\ spreadsheet g = Some sp /\ sheet g = Some sh
         /\ SHEET_URL g
            = "https://docs.google.com/spreadsheets/d/" ++ spreadsheet_id P sp))
  /\ ((modelo g = None /\ scaler g = None)
      \/ (exists m sc, modelo g = Some m /\ scaler g = Some sc)).
Proof.
  intros E. unfold module_init, bind in E.
  destruct (setup_google_sheets s) as [[client | e] s1]; [ | discriminate ].
  destruct (bind_spreadsheet client s1) as [[[[sp sh] url] | e] s2] eqn:Eb;
    [ | discriminate ].
  destruct (load_models s2) as [[[m sc] | e] s3] eqn:El; [ | discriminate ].
  unfold ret in E. inversion E; subst; simpl. split.
  - destruct client as [client | ].
    + right. destruct (bind_spreadsheet_bound _ _ Eb) as (sp' & sh' & -> & -> & ->).
      exists client, sp', sh'. auto.
    + left. simpl in Eb. unfold ret in Eb. inversion Eb; subst. auto.
  - exact (load_models_both_or_neither _ El).
Qed.

(** X3: an exception of [joblib.load] that is no [FileNotFoundError], at the
    model file or, once the model is loaded, at the scaler file, is not
    caught: the loading of the artifacts raises it, and the module never
    finishes loading. *)
Theorem load_error_other_than_missing_file_aborts (e : exn) :
  is_FileNotFoundError e = false ->
  joblib_load P "modelo_gradient_boosting_tuned.pkl" = Raise e
  \/ (exists m, joblib_load P "modelo_gradient_boosting_tuned.pkl" = Ret m
                /\ joblib_load P "scaler_ingresos.pkl" = Raise e) ->
  (forall s : state P, fst (load_models s) = Raise e)
  /\ (forall s : state P, exists e' s', module_init s = (Raise e', s')).
Proof.
  intros Hcls Hload.
  assert (Hl : forall s : state P, fst (load_models s) = Raise e).
  { intros s. unfold load_models, bind, try_except, lift, print, log, ret. simpl.
    destruct Hload as [E1 | (m & E1 & E2)].
    - rewrite E1; simpl. rewrite Hcls. reflexivity.
    - rewrite E1; simpl. rewrite E2; simpl. rewrite Hcls. reflexivity. }
  split; [ exact Hl | ].
  intros s. unfold module_init, bind.
  destruct (setup_google_sheets s) as [[client | e1] s1]; [ | eauto ].
  destruct (bind_spreadsheet client s1) as [[[[sp sh] url] | e2] s2]; [ | eauto ].
  specialize (Hl s2).
  destruct (load_models s2) as [[[m sc] | e3] s3]; simpl in Hl;
    [ discriminate | eauto ].
Qed.

(** X4: when the spreadsheet is there, binding it only opens it and takes
    its first sheet.  No row is inserted and nothing is shared: the rows the
    spreadsheet holds, row 2 included, are left as they are. *)
Theorem binding_existing_spreadsheet_writes_nothing
        (client : client_t P) (s : state P)
        (sp : spreadsheet_t P) (w1 : World P) (sh : worksheet_t P) (w2 : World P) :
  client_open P client "Predicciones_Ingresos_ML" (world s) = (Ret sp, w1) ->
  spreadsheet_sheet1 P sp w1 = (Ret sh, w2) ->
  let url := "https://docs.google.com/spreadsheets/d/" ++ spreadsheet_id P sp in
  bind_spreadsheet (Some client) s
  = (Ret (Some sp, Some sh, url),
     mkState w2
       (trace s ++
        [ EvOpen "Predicciones_Ingresos_ML";
          EvSheet1;
          EvPrint "✅ Conectado a la hoja existente: Predicciones_Ingresos_ML";
          EvPrint ("📋 URL de Google Sheet: " ++ url) ])).
Proof.
  intros Hopen Hsheet url.
  unfold bind_spreadsheet, open_or_create, try_except, bind, call, print, log, ret.
  unfold NOMBRE_HOJA. rewrite Hopen. simpl. rewrite Hsheet. simpl.
  rewrite <- !app_assoc. reflexivity.
Qed.

(** X5: when the spreadsheet is not found and every step of the creation
    answers, binding creates it, inserts the twelve headers at row 1 and
    the row ["", 0 (ten times), ""] at row 2, shares it with anyone as
    reader, in that order, and binds its first sheet. *)
Theorem binding_creates_missing_spreadsheet
        (client : client_t P) (s : state P) (e : exn)
        (sp : spreadsheet_t P) (sh : worksheet_t P) (w1 w2 w3 w4 w5 w6 : World P) :
  let cabecera : row :=
    [ CStr "Timestamp"; CStr "Interacciones"; CStr "Cantidad_Asesores";
      CStr "Promedio_Interacciones"; CStr "Cumplimiento_Meta";
      CStr "Participacion"; CStr "Promedio_Matriculas";
      CStr "Crecimiento_Mensual"; CStr "Crecimiento_Anual";
      CStr "Interacciones_por_Asesor"; CStr "Matriculas_por_Asesor";
      CStr "Ingreso_Estimado" ] in
  let ceros : row :=
    [ CStr "";
      CNum (PInt 0); CNum (PInt 0); CNum (PInt 0); CNum (PInt 0); CNum (PInt 0);
      CNum (PInt 0); CNum (PInt 0); CNum (PInt 0); CNum (PInt 0); CNum (PInt 0);
      CStr "" ] in
  client_open P client "Predicciones_Ingresos_ML" (world s) = (Raise e, w1) ->
  is_SpreadsheetNotFound e = true ->
  client_create P client "Predicciones_Ingresos_ML" w1 = (Ret sp, w2) ->
  spreadsheet_sheet1 P sp w2 = (Ret sh, w3) ->
  sheet_insert_row P sh cabecera 1 w3 = (Ret tt, w4) ->
  sheet_insert_row P sh ceros 2 w4 = (Ret tt, w5) ->
  spreadsheet_share P sp "" "anyone" "reader" w5 = (Ret tt, w6) ->
  let url := "https://docs.google.com/spreadsheets/d/" ++ spreadsheet_id P sp in
  bind_spreadsheet (Some client) s
  = (Ret (Some sp, Some sh, url),
     mkState w6
       (trace s ++
        [ EvOpen "Predicciones_Ingresos_ML";
          EvCreate "Predicciones_Ingresos_ML";
          EvSheet1;
          EvPrint "✅ Hoja creada: Predicciones_Ingresos_ML";
          EvInsertRow sh cabecera 1;
          EvInsertRow sh ceros 2;
          EvShare "" "anyone" "reader";
          EvPrint ("📋 URL de Google Sheet: " ++ url) ])).
Proof.
  intros cabecera ceros Hopen Hcls Hcreate Hsheet Hins1 Hins2 Hshare url.
  unfold bind_spreadsheet, open_or_create, crear_hoja.
  unfold try_except, bind, call, print, log, ret.
  unfold NOMBRE_HOJA. rewrite Hopen. simpl. rewrite Hcls. simpl.
  rewrite Hcreate. simpl. rewrite Hsheet. simpl.
  change (headers P) with cabecera. change (fila_datos P) with ceros.
  rewrite Hins1. simpl. rewrite Hins2. simpl. rewrite Hshare. simpl.
  rewrite <- !app_assoc. reflexivity.
Qed.

(** ** More on the prediction handler *)

(** The handler's [except] clause: the message is printed and returned. *)
Lemma predecir_body_raises (g : globals P) (i : inputs P) (s : state P)
      (m sc : artifact_t P) (e : exn) (s1 : state P) :
  modelo g = Some m ->
  scaler g = Some sc ->
  all_zero i = false ->
  (df <- lift (df_select P (data_input i) variables_modelo) ;;
   log (EvTransform sc df) ;;
   X_scaled <- lift (scaler_transform P sc df) ;;
   log (EvPredict m X_scaled) ;;
   y_pred_log <- lift (model_predict P m X_scaled) ;;
   y0 <- lift (getitem y_pred_log 0) ;;
   let ingreso_estimado := np_expm1 P y0 in
   timestamp <- now_strftime TIMESTAMP_FORMAT ;;
   sheets_status <-
     guardar_fila g (fila_actualizada timestamp i ingreso_estimado) ;;
   resultado <-
     lift (fstring_resultado g i ingreso_estimado sheets_status timestamp) ;;
   ret resultado) s
  = (Raise e, s1) ->
  predecir_y_guardar_sheets g i s
  = (Ret ("❌ Error en predicción: " ++ exn_str e),
     mkState (world s1)
       (trace s1 ++ [EvPrint ("❌ Error en predicción: " ++ exn_str e)])).
Proof.
  intros Hm Hsc Hz Hbody.
  unfold predecir_y_guardar_sheets. rewrite Hm, Hsc, Hz.
  erewrite try_except_caught; [ | exact Hbody | reflexivity ].
  reflexivity.
Qed.

Lemma predecir_transform_fails (g : globals P) (i : inputs P) (s : state P)
      (m sc : artifact_t P) (e : exn) :
  modelo g = Some m ->
  scaler g = Some sc ->
  all_zero i = false ->
  scaler_transform P sc (data_input i) = Raise e ->
  predecir_y_guardar_sheets g i s
  = (Ret ("❌ Error en predicción: " ++ exn_str e),
     mkState (world s)
       (trace s ++ [ EvTransform sc (data_input i);
                     EvPrint ("❌ Error en predicción: " ++ exn_str e) ])).
Proof.
  intros Hm Hsc Hz Ht.
  rewrite (predecir_body_raises g i s (e := e)
             (s1 := mkState (world s) (trace s ++ [EvTransform sc (data_input i)]))
             Hm Hsc Hz).
  2:{ unfold bind at 1. unfold lift at 1. rewrite df_select_variables_modelo.
      change (combine variables_modelo _) with (data_input i).
      unfold bind at 1. unfold log at 1.
      unfold bind at 1. unfold lift at 1. rewrite Ht. reflexivity. }
  simpl world. simpl trace. rewrite <- app_assoc. reflexivity.
Qed.

Lemma predecir_predict_fails (g : globals P) (i : inputs P) (s : state P)
      (m sc : artifact_t P) (X : ndarray_t P) (e : exn) :
  modelo g = Some m ->
  scaler g = Some sc ->
  all_zero i = false ->
  scaler_transform P sc (data_input i) = Ret X ->
  model_predict P m X = Raise e ->
  predecir_y_guardar_sheets g i s
  = (Ret ("❌ Error en predicción: " ++ exn_str e),
     mkState (world s)
       (trace s ++ [ EvTransform sc (data_input i); EvPredict m X;
                     EvPrint ("❌ Error en predicción: " ++ exn_str e) ])).
Proof.
  intros Hm Hsc Hz Ht Hp.
  rewrite (predecir_body_raises g i s (e := e)
             (s1 := mkState (world s)
                      ((trace s ++ [EvTransform sc (data_input i)])
                         ++ [EvPredict m X]))
             Hm Hsc Hz).
  2:{ unfold bind at 1. unfold lift at 1. rewrite df_select_variables_modelo.
      change (combine variables_modelo _) with (data_input i).
      unfold bind at 1. unfold log at 1.
      unfold bind at 1. unfold lift at 1. rewrite Ht.
      unfold bind at 1. unfold log at 1.
      unfold bind at 1. unfold lift at 1. rewrite Hp. reflexivity. }
  simpl world. simpl trace. rewrite <- !app_assoc. reflexivity.
Qed.

Lemma predecir_empty_prediction (g : globals P) (i : inputs P) (s : state P)
      (m sc : artifact_t P) (X : ndarray_t P) :
  modelo g = Some m ->
  scaler g = Some sc ->
  all_zero i = false ->
  scaler_transform P sc (data_input i) = Ret X ->
  model_predict P m X = Ret [] ->
  exists e,
    predecir_y_guardar_sheets g i s
    = (Ret ("❌ Error en predicción: " ++ exn_str e),
       mkState (world s)
         (trace s ++ [ EvTransform sc (data_input i); EvPredict m X;
                       EvPrint ("❌ Error en predicción: " ++ exn_str e) ])).
Proof.
  intros Hm Hsc Hz Ht Hp.
  eexists.
  erewrite (predecir_body_raises g i s
              (s1 := mkState (world s)
                       ((trace s ++ [EvTransform sc (data_input i)])
                          ++ [EvPredict m X]))
              Hm Hsc Hz).
  2:{ unfold bind at 1. unfold lift at 1. rewrite df_select_variables_modelo.
      change (combine variables_modelo _) with (data_input i).
      unfold bind at 1. unfold log at 1.
      unfold bind at 1. unfold lift at 1. rewrite Ht.
      unfold bind at 1. unfold log at 1.
      unfold bind at 1. unfold lift at 1. rewrite Hp.
      unfold bind at 1. unfold lift at 1. unfold getitem. simpl nth_error.
      reflexivity. }
  simpl world. simpl trace. rewrite <- !app_assoc. reflexivity.
Qed.

(** The message cannot be built when [interacciones] is [None]: the save
    step has run by then, and the handler ends in its [except] clause. *)
Lemma predecir_fstring_fails (g : globals P) (i : inputs P) (s : state P)
      (m sc : artifact_t P) (X : ndarray_t P) (y : float_t P)
      (ys : list (float_t P)) (status : string) (s2 : state P) :
  modelo g = Some m ->
  scaler g = Some sc ->
  all_zero i = false ->
  is_number (interacciones i) = false ->
  scaler_transform P sc (data_input i) = Ret X ->
  model_predict P m X = Ret (y :: ys) ->
  guardar_fila g
    (fila_actualizada (strftime P (datetime_now P (world s)) TIMESTAMP_FORMAT)
       i (np_expm1 P y))
    (after_inference s sc m (data_input i) X) = (Ret status, s2) ->
  exists e,
    predecir_y_guardar_sheets g i s
    = (Ret ("❌ Error en predicción: " ++ exn_str e),
       mkState (world s2)
         (trace s2 ++ [EvPrint ("❌ Error en predicción: " ++ exn_str e)])).
Proof.
  intros Hm Hsc Hz Hnum Ht Hp Hsave.
  eexists.
  erewrite (predecir_body_raises g i s (s1 := s2) Hm Hsc Hz).
  2:{ unfold bind at 1. unfold lift at 1. rewrite df_select_variables_modelo.
      change (combine variables_modelo _) with (data_input i).
      unfold bind at 1. unfold log at 1.
      unfold bind at 1. unfold lift at 1. rewrite Ht.
      unfold bind at 1. unfold log at 1.
      unfold bind at 1. unfold lift at 1. rewrite Hp.
      unfold bind at 1. unfold lift at 1. unfold getitem; simpl nth_error.
      unfold bind at 1. unfold now_strftime at 1. cbv beta iota. simpl world.
      unfold after_inference in Hsave. simpl trace.
      rewrite <- app_assoc; simpl app.
      erewrite bind_Ret by exact Hsave.
      unfold bind, lift, fstring_resultado.
      destruct (interacciones i); [ discriminate Hnum | discriminate Hnum | ].
      reflexivity. }
  reflexivity.
Qed.

(** X6: with both artifacts loaded and an input that is not all zero, an
    exception [e] of the scaler, or of the model on the scaled features, ends
    the handler with the message "Error en predicción" carrying [str(e)].
    The message is printed, the sheet is not called, and the world is as it
    was. *)
Theorem inference_failure_is_reported_without_write
        (g : globals P) (i : inputs P) (s : state P) (m sc : artifact_t P)
        (e : exn) :
  modelo g = Some m ->
  scaler g = Some sc ->
  all_zero i = false ->
  let msg := "❌ Error en predicción: " ++ exn_str e in
  (scaler_transform P sc (data_input i) = Raise e ->
   predecir_y_guardar_sheets g i s
   = (Ret msg,
      mkState (world s)
        (trace s ++ [ EvTransform sc (data_input i); EvPrint msg ])))
  /\ (forall X,
        scaler_transform P sc (data_input i) = Ret X ->
        model_predict P m X = Raise e ->
        predecir_y_guardar_sheets g i s
        = (Ret msg,
           mkState (world s)
             (trace s ++ [ EvTransform sc (data_input i); EvPredict m X;
                           EvPrint msg ]))).
Proof.
  intros Hm Hsc Hz msg. split.
  - intros Ht. eapply predecir_transform_fails; eauto.
  - intros X Ht Hp. eapply predecir_predict_fails; eauto.
Qed.

(** The save step never raises: it returns a status, having made at most
    one call, the update of [A2:L2] on the bound sheet. *)
Lemma guardar_fila_cases (g : globals P) (fila : row) (s1 : state P) :
  exists status s2 evs,
    guardar_fila g fila s1 = (Ret status, s2)
    /\ trace s2 = (trace s1 ++ evs)%list
    /\ save_status g status
    /\ (evs = []
        \/ exists sh, sheet g = Some sh /\ evs = [EvUpdate sh "A2:L2" [fila]]).
Proof.
  unfold guardar_fila, save_status.
  destruct (sheet g) as [sh | ].
  - unfold try_except, bind, call, ret.
    destruct (sheet_update P sh "A2:L2" [fila] (world s1)) as [[[] | e] w'];
      simpl.
    + do 3 eexists. repeat split; [ left; reflexivity | right; eauto ].
    + do 3 eexists. repeat split; [ right; eauto | right; eauto ].
  - unfold ret. exists MSG_NO_CONFIGURADO, s1, [].
    rewrite app_nil_r. repeat split; auto.
Qed.

(** Every way the prediction handler may go: it returns one of its four
    messages, having made at most one call into the world. *)
Lemma predecir_cases (g : globals P) (i : inputs P) (s : state P) :
  exists msg s' evs,
    predecir_y_guardar_sheets g i s = (Ret msg, s')
    /\ trace s' = (trace s ++ evs)%list
    /\ prediction_outcome g i msg
    /\ (calls evs = []
        \/ exists sh fila,
             sheet g = Some sh /\ calls evs = [EvUpdate sh "A2:L2" [fila]]).
Proof.
  destruct (modelo g) as [m | ] eqn:Hm.
  2:{ exists MSG_MODELOS_NO_DISPONIBLES, s, [].
      rewrite predecir_without_artifacts by auto. rewrite app_nil_r.
      repeat split; auto. apply OutNoArtifacts; auto. }
  destruct (scaler g) as [sc | ] eqn:Hsc.
  2:{ exists MSG_MODELOS_NO_DISPONIBLES, s, [].
      rewrite predecir_without_artifacts by auto. rewrite app_nil_r.
      repeat split; auto. apply OutNoArtifacts; auto. }
  assert (Hm' : modelo g <> None) by (rewrite Hm; discriminate).
  assert (Hsc' : scaler g <> None) by (rewrite Hsc; discriminate).
  destruct (all_zero i) eqn:Hz.
  { exists MSG_VALORES_VALIDOS, s, []. rewrite app_nil_r.
    repeat split; auto.
    - unfold predecir_y_guardar_sheets, try_except. rewrite Hm, Hsc, Hz.
      reflexivity.
    - apply OutAllZero; auto. }
  destruct (scaler_transform P sc (data_input i)) as [X | e] eqn:Ht.
  2:{ do 3 eexists. split; [ eapply predecir_transform_fails; eauto | ].
      simpl. repeat split; auto. apply OutError; auto. }
  destruct (model_predict P m X) as [[ | y ys] | e] eqn:Hp.
  - destruct (predecir_empty_prediction g i s Hm Hsc Hz Ht Hp) as (e & E).
    do 3 eexists. split; [ exact E | ].
    simpl. repeat split; auto. apply OutError; auto.
  - destruct (guardar_fila_cases g
                (fila_actualizada
                   (strftime P (datetime_now P (world s)) TIMESTAMP_FORMAT) i
                   (np_expm1 P y))
                (after_inference s sc m (data_input i) X))
      as (status & s2 & evs & Eg & Etr & Hst & Hev).
    destruct (is_number (interacciones i)) eqn:Hnum.
    + exists (resultado_prediccion g i (np_expm1 P y) status
                (strftime P (datetime_now P (world s)) TIMESTAMP_FORMAT)).
      exists s2.
      exists ([EvTransform sc (data_input i); EvPredict m X] ++ evs)%list.
      split; [ eapply predecir_reaches_save; eauto | ].
      split; [ rewrite Etr; simpl; rewrite <- app_assoc; reflexivity | ].
      split; [ apply OutResult; auto | ].
      destruct Hev as [-> | (sh & Hsh & ->)].
      * left; reflexivity.
      * right. exists sh. eexists. split; [ exact Hsh | reflexivity ].
    + destruct (predecir_fstring_fails g i s Hm Hsc Hz Hnum Ht Hp Eg) as (e & E).
      do 2 eexists.
      exists ([EvTransform sc (data_input i); EvPredict m X] ++ evs
                ++ [EvPrint ("❌ Error en predicción: " ++ exn_str e)])%list.
      split; [ exact E | ].
      split; [ simpl trace; rewrite Etr; simpl; rewrite <- !app_assoc;
               reflexivity | ].
      split; [ apply OutError; auto | ].
      destruct Hev as [-> | (sh & Hsh & ->)].
      * left; reflexivity.
      * right. exists sh. eexists. split; [ exact Hsh | reflexivity ].
  - do 3 eexists. split; [ eapply predecir_predict_fails; eauto | ].
    simpl. repeat split; auto. apply OutError; auto.
Qed.

(** X7: whatever the globals, the inputs and the state, the prediction
    handler returns, and what it returns is one of four messages: "models
    not available" (an artifact is [None]); the "enter valid values" warning
    (artifacts loaded, all inputs zero); "Error en predicción" with the text
    of an exception; or the result message, whose save status is "saved" or
    the save warning when a sheet is bound and "not configured" when none
    is. *)
Theorem prediction_returns_one_of_four_messages
        (g : globals P) (i : inputs P) (s : state P) :
  exists msg s',
    predecir_y_guardar_sheets g i s = (Ret msg, s')
    /\ prediction_outcome g i msg.
Proof.
  destruct (predecir_cases g i s) as (msg & s' & evs & E & _ & Hout & _).
  exists msg, s'. auto.
Qed.

Lemma prediction_outcome_valores (g : globals P) (i : inputs P) :
  prediction_outcome g i MSG_VALORES_VALIDOS ->
  modelo g <> None /\ scaler g <> None /\ all_zero i = true.
Proof.
  intros H. remember MSG_VALORES_VALIDOS as msg eqn:E.
  destruct H as [ Hn | Hm Hsc Hz | e Hm Hsc Hz | y st ts Hm Hsc Hz Hs ].
  - exfalso. apply modelos_msg_is_not_valores_msg. exact E.
  - auto.
  - exfalso. unfold MSG_VALORES_VALIDOS in E. simpl in E. discriminate E.
  - exfalso. unfold MSG_VALORES_VALIDOS, resultado_prediccion in E.
    simpl in E. discriminate E.
Qed.

Lemma prediction_outcome_modelos (g : globals P) (i : inputs P) :
  prediction_outcome g i MSG_MODELOS_NO_DISPONIBLES ->
  modelo g = None \/ scaler g = None.
Proof.
  intros H. remember MSG_MODELOS_NO_DISPONIBLES as msg eqn:E.
  destruct H as [ Hn | Hm Hsc Hz | e Hm Hsc Hz | y st ts Hm Hsc Hz Hs ].
  - auto.
  - exfalso. apply modelos_msg_is_not_valores_msg. symmetry. exact E.
  - exfalso. unfold MSG_MODELOS_NO_DISPONIBLES in E. simpl in E. discriminate E.
  - exfalso. unfold MSG_MODELOS_NO_DISPONIBLES, resultado_prediccion in E.
    simpl in E. discriminate E.
Qed.

(** X8: the two fixed messages of the prediction handler tell their cause.
    The handler returns the "enter valid values" warning exactly when both
    artifacts are loaded and all ten inputs are zero, and the "models not
    available" message exactly when the model or the scaler is [None]: no
    error text and no result message is equal to either. *)
Theorem fixed_messages_identify_their_cause
        (g : globals P) (i : inputs P) (s : state P) (msg : string) (s' : state P) :
  predecir_y_guardar_sheets g i s = (Ret msg, s') ->
  (msg = "⚠️ Por favor ingrese valores válidos (no todos pueden ser 0)"
   <-> (modelo g <> None /\ scaler g <> None /\ all_zero i = true))
  /\ (msg = "❌ Error: Modelos ML no están disponibles"
      <-> (modelo g = None \/ scaler g = None)).
Proof.
  intros E.
  destruct (predecir_cases g i s) as (msg0 & s0 & evs & E0 & _ & Hout & _).
  rewrite E in E0. inversion E0; subst msg0 s0. clear E0.
  split; split.
  - intros ->. exact (prediction_outcome_valores Hout).
  - intros (Hm & Hsc & Hz).
    destruct (modelo g) as [m | ] eqn:Em; [ | contradiction ].
    destruct (scaler g) as [sc | ] eqn:Esc; [ | contradiction ].
    unfold predecir_y_guardar_sheets, try_except in E.
    rewrite Em, Esc, Hz in E. inversion E. reflexivity.
  - intros ->. exact (prediction_outcome_modelos Hout).
  - intros H. rewrite predecir_without_artifacts in E by exact H.
    inversion E. reflexivity.
Qed.

(** ** More on the clear and the display handlers *)

(** X9: with a sheet bound, a clear whose write raises [e] returns the
    message "Error limpiando datos" carrying [str(e)]; nothing is raised,
    and the update of [A2:L2] is the only call made. *)
Theorem clear_write_failure_is_reported
        (g : globals P) (s : state P) (sh : worksheet_t P) (e : exn) (w1 : World P) :
  sheet g = Some sh ->
  let timestamp := strftime P (datetime_now P (world s)) "%Y-%m-%d %H:%M:%S" in
  let fila : row :=
    [ CStr timestamp;
      CNum (PInt 0); CNum (PInt 0); CNum (PInt 0); CNum (PInt 0); CNum (PInt 0);
      CNum (PInt 0); CNum (PInt 0); CNum (PInt 0); CNum (PInt 0); CNum (PInt 0);
      CStr "" ] in
  sheet_update P sh "A2:L2" [fila] (world s) = (Raise e, w1) ->
  limpiar_datos g s
  = (Ret ("❌ Error limpiando datos: " ++ exn_str e),
     mkState w1 (trace s ++ [EvUpdate sh "A2:L2" [fila]])).
Proof.
  intros Hsh timestamp fila Hup. unfold limpiar_datos. rewrite Hsh.
  erewrite try_except_caught; [ reflexivity | | reflexivity ].
  unfold bind at 1. unfold now_strftime at 1. cbv beta iota. fold timestamp.
  change (fila_limpia P timestamp) with fila.
  apply bind_Raise. apply call_eq. exact Hup.
Qed.

(** X10: with a sheet bound, a show whose read raises [e] returns the
    message "Error leyendo datos" carrying [str(e)]; nothing is raised, and
    the read of row 2 is the only call made. *)
Theorem show_read_failure_is_reported
        (g : globals P) (s : state P) (sh : worksheet_t P) (e : exn) (w1 : World P) :
  sheet g = Some sh ->
  sheet_row_values P sh 2 (world s) = (Raise e, w1) ->
  mostrar_datos_actuales g s
  = (Ret ("❌ Error leyendo datos: " ++ exn_str e),
     mkState w1 (trace s ++ [EvRowValues sh 2])).
Proof.
  intros Hsh Hread. unfold mostrar_datos_actuales. rewrite Hsh.
  erewrite try_except_caught; [ reflexivity | | reflexivity ].
  apply bind_Raise. apply call_eq. exact Hread.
Qed.

(** X11: the display is made of the first twelve cells of the row read.
    Cells after the twelfth change nothing. *)
Theorem show_displays_first_twelve_cells
        (g : globals P) (s : state P) (sh : worksheet_t P) (w' : World P)
        (v0 v1 v2 v3 v4 v5 v6 v7 v8 v9 v10 v11 : string) (more : list string) :
  sheet g = Some sh ->
  sheet_row_values P sh 2 (world s)
  = (Ret (v0 :: v1 :: v2 :: v3 :: v4 :: v5 :: v6 :: v7 :: v8 :: v9 :: v10 :: v11
             :: more), w') ->
  mostrar_datos_actuales g s
  = (Ret (resultado_datos (SHEET_URL g) v0 v1 v2 v3 v4 v5 v6 v7 v8 v9 v10 v11),
     mkState w' (trace s ++ [EvRowValues sh 2])).
Proof.
  intros Hsh Hread.
  rewrite (mostrar_after_read g s Hsh Hread). reflexivity.
Qed.

Lemma calls_nil_no_call (evs : list (event P)) :
  calls evs = [] -> existsb is_call evs = false.
Proof.
  unfold calls. induction evs as [ | ev evs IH]; simpl; [ reflexivity | ].
  destruct (is_call ev); [ discriminate | ]. exact IH.
Qed.

(** X12: a handler calls nothing but the bound sheet, and at most once.
    A prediction makes no call, and then leaves the world as it was, or
    makes one: an update of [A2:L2] with one row.  A clear with a sheet
    bound makes exactly that one call, whatever its outcome; a show with a
    sheet bound makes exactly one call, the read of row 2.  Without a sheet
    a clear and a show make none.  No handler opens, creates or shares a
    spreadsheet, inserts a row, or authorizes again. *)
Theorem handlers_call_only_the_bound_sheet (g : globals P) (s : state P) :
  (forall i, exists evs,
     trace (snd (predecir_y_guardar_sheets g i s)) = (trace s ++ evs)%list
     /\ ((calls evs = []
          /\ world (snd (predecir_y_guardar_sheets g i s)) = world s)
         \/ exists sh fila,
              sheet g = Some sh /\ calls evs = [EvUpdate sh "A2:L2" [fila]]))
  /\ (exists evs,
        trace (snd (limpiar_datos g s)) = (trace s ++ evs)%list
        /\ ((sheet g = None /\ evs = [])
            \/ exists sh fila,
                 sheet g = Some sh /\ evs = [EvUpdate sh "A2:L2" [fila]]))
  /\ (exists evs,
        trace (snd (mostrar_datos_actuales g s)) = (trace s ++ evs)%list
        /\ ((sheet g = None /\ evs = [])
            \/ exists sh, sheet g = Some sh /\ evs = [EvRowValues sh 2])).
Proof.
  split; [ | split ].
  - intros i.
    destruct (predecir_cases g i s) as (msg & s' & evs & E & Etr & _ & Hcalls).
    destruct (predecir_adds_write_ok g i s) as (evs' & Etr' & _ & W).
    rewrite E in *. simpl in *.
    assert (evs' = evs) by (eapply app_inv_head; rewrite <- Etr, <- Etr'; reflexivity).
    subst evs'. exists evs. split; [ exact Etr | ].
    destruct Hcalls as [Hnil | Hone].
    + left. split; [ exact Hnil | ]. apply W. apply calls_nil_no_call. exact Hnil.
    + right. exact Hone.
  - unfold limpiar_datos. destruct (sheet g) as [sh | ].
    + unfold try_except, bind, now_strftime, call, ret.
      destruct (sheet_update P sh "A2:L2"
                  [fila_limpia P (strftime P (datetime_now P (world s))
                                    TIMESTAMP_FORMAT)] (world s))
        as [[[] | e] w1]; simpl;
        (eexists; split; [ reflexivity | right; eauto ]).
    + exists []. simpl. rewrite app_nil_r. auto.
  - destruct (sheet g) as [sh | ] eqn:Hsh.
    + exists [EvRowValues sh 2]. split; [ | right; eauto ].
      destruct (sheet_row_values P sh 2 (world s)) as [[valores | e] w1] eqn:Er.
      * rewrite (mostrar_after_read g s Hsh Er). reflexivity.
      * unfold mostrar_datos_actuales. rewrite Hsh.
        erewrite try_except_caught;
          [ | apply bind_Raise; apply call_eq; exact Er | reflexivity ].
        reflexivity.
    + exists []. unfold mostrar_datos_actuales. rewrite Hsh.
      simpl. rewrite app_nil_r. auto.
Qed.

(** ** Loading the module in degraded mode *)




End Properties.

(** * The theorems on the simulated platform *)

Section Runs.

Local Abbreviation PF := (Sim.platform Sim.cfg_full).
Local Abbreviation g_full := (Sim.g_bound Sim.cfg_full).
Local Abbreviation i_default := (Sim.i_default Sim.cfg_full).
Local Abbreviation i_zero := (Sim.i_zero Sim.cfg_full).
Local Abbreviation s_up := (Sim.start Sim.cfg_full Sim.w_header_only).
Local Abbreviation s_down := (Sim.start Sim.cfg_full Sim.w_offline).

(** C1: the service is down when the module is loaded, or the spreadsheet is
    not found and cannot be created.  Loading the module ends with the
    exception of the service: it is not caught, and no globals are left. *)
Lemma binding_failure_aborts_startup :
  fst (module_init s_down) = Raise Sim.api_error
  /\ fst (module_init (Sim.start Sim.cfg_full Sim.w_cannot_create))
     = Raise Sim.api_error.
Proof. split; reflexivity. Qed.

Lemma binding_catches_only_not_found_witness :
  is_SpreadsheetNotFound Sim.api_error = false
  /\ bind_spreadsheet (P := PF) (Some tt) s_down
     = (Raise Sim.api_error,
        @mkState PF Sim.w_offline [EvOpen "Predicciones_Ingresos_ML"]).
Proof.
  split; [ reflexivity | ].
  destruct (proj1 (proj2 (proj2 (@binding_catches_only_not_found PF tt s_down)))
              Sim.api_error Sim.w_offline eq_refl) as [H _].
  apply H. reflexivity.
Defined.

(** The default form values, the service up: the handler writes the row and
    the sheet holds it. *)
Lemma prediction_overwrites_row2_witness :
  numeric i_default = true
  /\ all_zero i_default = false
  /\ exists msg w',
       predecir_y_guardar_sheets g_full i_default s_up
       = (Ret msg,
          @mkState PF w'
            [ @EvTransform PF "scaler" (data_input i_default);
              @EvPredict PF "model" [1000; 5; 200; 85; 75; 50; 10; 15; 200; 10]%Z;
              @EvUpdate PF tt "A2:L2"
                [[ CStr "2024-05-17 09:30:07";
                   CNum (PInt 1000); CNum (PInt 5); CNum (PInt 200);
                   CNum (PInt 85); CNum (PInt 75); CNum (PInt 50);
                   CNum (PInt 10); CNum (PInt 15); CNum (PInt 200);
                   CNum (PInt 10); CStr "1,023" ]] ])
       /\ nth 1 (Sim.rows w') []
          = [ "2024-05-17 09:30:07"; "1000"; "5"; "200"; "85"; "75"; "50";
              "10"; "15"; "200"; "10"; "1,023" ].
Proof.
  split; [ reflexivity | ]. split; [ reflexivity | ].
  edestruct (@prediction_overwrites_row2 PF g_full i_default s_up) as [E _];
    [ reflexivity | reflexivity | reflexivity | reflexivity | reflexivity
    | reflexivity | reflexivity | reflexivity | ].
  eexists. eexists. split; [ exact E | reflexivity ].
Defined.

(** C4: an all-zero submission while the artifacts are not loaded.  The
    handler returns the "models not available" message, which is not the
    "enter valid values" warning. *)
Lemma all_zero_without_models_gets_other_message :
  all_zero i_zero = true
  /\ predecir_y_guardar_sheets (Sim.g_no_models Sim.cfg_full) i_zero s_up
     = (Ret "❌ Error: Modelos ML no están disponibles", s_up)
  /\ "❌ Error: Modelos ML no están disponibles"
     <> "⚠️ Por favor ingrese valores válidos (no todos pueden ser 0)".
Proof. split; [ | split ]; [ reflexivity | reflexivity | discriminate ]. Qed.

Lemma all_zero_rejected_without_write_witness :
  all_zero i_zero = true
  /\ predecir_y_guardar_sheets g_full i_zero s_up
     = (Ret "⚠️ Por favor ingrese valores válidos (no todos pueden ser 0)", s_up).
Proof.
  split; [ reflexivity | ].
  apply (@all_zero_rejected_without_write PF g_full i_zero s_up "model" "scaler");
    reflexivity.
Defined.

(** The scaler file is not on disk: the module loads, without artifacts. *)
Lemma missing_artifacts_disable_prediction_witness :
  artifact_file_missing (Sim.platform Sim.cfg_no_scaler)
  /\ exists g s',
       module_init (Sim.start Sim.cfg_no_scaler Sim.w_header_only) = (Ret g, s')
       /\ modelo g = None /\ scaler g = None
       /\ predecir_y_guardar_sheets g (Sim.i_default Sim.cfg_no_scaler) s'
          = (Ret "❌ Error: Modelos ML no están disponibles", s').
Proof.
  assert (Hmiss : artifact_file_missing (Sim.platform Sim.cfg_no_scaler)).
  { right. split; [ exists "model" | eexists ]; reflexivity. }
  split; [ exact Hmiss | ].
  destruct (@missing_artifacts_disable_prediction _ Hmiss) as (_ & Hinit & Hpred).
  eexists. eexists. split; [ reflexivity | ].
  split; [ reflexivity | split; [ reflexivity | ] ].
  apply Hpred; reflexivity.
Defined.


(** A clear and then a show, the service up and reading back what it
    holds. *)
Lemma clear_then_show_witness :
  exists s1 s2,
    limpiar_datos g_full s_up
    = (Ret "✅ Datos limpiados correctamente en Google Sheets", s1)
    /\ mostrar_datos_actuales g_full s1
       = (Ret "
📊 **DATOS ACTUALES EN GOOGLE SHEETS**

📅 Última actualización: 2024-05-17 09:30:07
🔢 Interacciones: 0
👥 Asesores: 0
📈 Promedio Interacciones: 0
🎯 % Cumplimiento: 0%
📊 Participación: 0%
📋 Promedio Matrículas: 0
📈 Crecimiento Mensual: 0%
📈 Crecimiento Anual: 0%
👤 Interacciones/Asesor: 0
🎓 Matrículas/Asesor: 0

💰 **RESULTADO ACTUAL: **

🔗 **[Ver Google Sheet](https://docs.google.com/spreadsheets/d/sim)**
            ",
          s2).
Proof.
  edestruct (@clear_then_show PF g_full s_up tt) as (E1 & E2 & _);
    [ reflexivity | reflexivity | ].
  eexists. eexists. split; [ exact E1 | ].
  apply E2. reflexivity.
Defined.

(** C7: the same clear and show on a service that reads a row back without
    its trailing empty cells.  The clear succeeds and the sheet holds the
    twelve cells; the show that follows returns the "no data" message, not a
    display of ten zeros. *)
Lemma clear_then_show_on_a_trimming_service :
  let PT := Trimming.platform Sim.cfg_full in
  let g := mkGlobals PT (Some tt) (Some tt) (Some tt)
             "https://docs.google.com/spreadsheets/d/sim"
             (Some "model") (Some "scaler") in
  exists s1 s2,
    limpiar_datos g (mkState (P := PT) Sim.w_header_only [])
    = (Ret "✅ Datos limpiados correctamente en Google Sheets", s1)
    /\ nth 1 (Sim.rows (world s1)) []
       = [ "2024-05-17 09:30:07";
           "0"; "0"; "0"; "0"; "0"; "0"; "0"; "0"; "0"; "0"; "" ]
    /\ mostrar_datos_actuales g s1
       = (Ret "⚠️ No hay datos en Google Sheets aún", s2).
Proof.
  intros PT g. eexists. eexists.
  split; [ reflexivity | ]. split; reflexivity.
Qed.

(** C3: the default form values with the advisors field emptied, so that
    the form hands [None] for it; the scaler and the model answer.  The row
    the handler writes holds [None] in cell 2, which is no number. *)
Lemma emptied_field_is_written_as_none :
  let i := mkInputs PF (PInt 1000) PNone (PInt 200) (PInt 85) (PInt 75)
             (PInt 50) (PInt 10) (PInt 15) (PInt 200) (PInt 10) in
  all_zero i = false
  /\ is_number (asesores i) = false
  /\ exists msg w',
       predecir_y_guardar_sheets g_full i s_up
       = (Ret msg,
          @mkState PF w'
            [ @EvTransform PF "scaler" (data_input i);
              @EvPredict PF "model" [1000; 0; 200; 85; 75; 50; 10; 15; 200; 10]%Z;
              @EvUpdate PF tt "A2:L2"
                [[ CStr "2024-05-17 09:30:07";
                   CNum (PInt 1000); CNum PNone; CNum (PInt 200);
                   CNum (PInt 85); CNum (PInt 75); CNum (PInt 50);
                   CNum (PInt 10); CNum (PInt 15); CNum (PInt 200);
                   CNum (PInt 10); CStr "1,023" ]] ]).
Proof.
  intros i. split; [ reflexivity | ]. split; [ reflexivity | ].
  eexists. eexists. reflexivity.
Qed.

(** A prediction on the default form values: the ten values written are
    the inputs, and they are numbers. *)
Lemma every_row_write_has_twelve_cells_witness :
  numeric_inputs (OpPredecir g_full i_default) = true
  /\ forall v, In v (row2_values (OpPredecir g_full i_default)) ->
               is_number v = true.
Proof.
  split; [ reflexivity | ].
  apply (proj2 (proj2 (@every_row_write_has_twelve_cells PF
                         (OpPredecir g_full i_default) s_up))).
  reflexivity.
Defined.

(** A show on a sheet that holds its header row only. *)
Lemma short_row_shows_no_data_witness :
  List.length (nth 1 (Sim.rows Sim.w_header_only) []) < 12
  /\ mostrar_datos_actuales g_full s_up
     = (Ret "⚠️ No hay datos en Google Sheets aún",
        @mkState PF Sim.w_header_only [@EvRowValues PF tt 2]).
Proof.
  split; [ simpl; lia | ].
  apply (proj1 (@short_row_shows_no_data PF g_full) s_up tt
               (nth 1 (Sim.rows Sim.w_header_only) []) Sim.w_header_only);
    [ reflexivity | reflexivity | simpl; lia ].
Defined.

(** The default form values, the service down. *)
Lemma write_failure_is_only_a_warning_witness :
  numeric i_default = true
  /\ all_zero i_default = false
  /\ exists msg s',
       predecir_y_guardar_sheets g_full i_default s_down = (Ret msg, s')
       /\ contains "💰 **Ingreso Estimado: $1,023**" msg
       /\ contains "⚠️ Error guardando en Sheets: service unavailable" msg.
Proof.
  split; [ reflexivity | ]. split; [ reflexivity | ].
  edestruct (@write_failure_is_only_a_warning PF g_full i_default s_down)
    as (msg & E & _ & C1 & C2);
    [ reflexivity | reflexivity | reflexivity | reflexivity | reflexivity
    | reflexivity | reflexivity | reflexivity | ].
  exists msg. eexists. split; [ exact E | split; [ exact C1 | exact C2 ] ].
Defined.

(** An all-zero submission without the artifacts. *)
Lemma availability_check_precedes_validation_witness :
  all_zero i_zero = true
  /\ predecir_y_guardar_sheets (Sim.g_no_models Sim.cfg_full) i_zero s_up
     = (Ret "❌ Error: Modelos ML no están disponibles", s_up).
Proof.
  split; [ reflexivity | ].
  apply (proj1 (@availability_check_precedes_validation PF
                  (Sim.g_no_models Sim.cfg_full) i_zero s_up));
    [ left; reflexivity | reflexivity ].
Defined.

(** The module loaded with everything in place. *)
Lemma module_init_globals_consistent_witness :
  exists g s',
    module_init s_up = (Ret g, s')
    /\ (exists client sp sh,
          gc g = Some client /\ spreadsheet g = Some sp /\ sheet g = Some sh
          /\ SHEET_URL g = "https://docs.google.com/spreadsheets/d/sim")
    /\ (exists m sc, modelo g = Some m /\ scaler g = Some sc).
Proof.
  eexists. eexists. split; [ reflexivity | ].
  match goal with
  | |- (exists c sp sh, gc ?g = _ /\ _) /\ _ =>
      destruct (@module_init_globals_consistent PF s_up g _ eq_refl)
        as [[(Hgc & _) | Hbound] [(Hm & _) | Hloaded]]
  end; try discriminate.
  split; [ exact Hbound | exact Hloaded ].
Defined.

(** The model file is there and cannot be read back. *)
Lemma load_error_other_than_missing_file_aborts_witness :
  is_FileNotFoundError Faulty.unpickling_error = false
  /\ fst (load_models
            (mkState (P := Faulty.broken_model_file) Sim.w_header_only []))
     = Raise Faulty.unpickling_error.
Proof.
  split; [ reflexivity | ].
  apply (proj1 (@load_error_other_than_missing_file_aborts
                  Faulty.broken_model_file Faulty.unpickling_error
                  eq_refl (or_introl eq_refl))).
Defined.

(** The spreadsheet is there, with its header row. *)
Lemma binding_existing_spreadsheet_writes_nothing_witness :
  exists s',
    bind_spreadsheet (P := PF) (Some tt) s_up
    = (Ret (Some tt, Some tt, "https://docs.google.com/spreadsheets/d/sim"), s')
    /\ Sim.rows (world s') = Sim.rows Sim.w_header_only.
Proof.
  eexists. split.
  - apply (@binding_existing_spreadsheet_writes_nothing PF tt s_up tt
             Sim.w_header_only tt Sim.w_header_only);
      reflexivity.
  - reflexivity.
Defined.

(** No spreadsheet of that name, and the service lets one be created. *)
Lemma binding_creates_missing_spreadsheet_witness :
  exists s',
    bind_spreadsheet (P := PF) (Some tt)
      (Sim.start Sim.cfg_full (Sim.mkWorld true true false [] 3))
    = (Ret (Some tt, Some tt, "https://docs.google.com/spreadsheets/d/sim"), s')
    /\ Sim.rows (world s')
       = [ Sim.header_text;
           [""; "0"; "0"; "0"; "0"; "0"; "0"; "0"; "0"; "0"; "0"; ""] ].
Proof.
  eexists. split.
  - eapply (@binding_creates_missing_spreadsheet PF tt
              (Sim.start Sim.cfg_full (Sim.mkWorld true true false [] 3))
              Sim.not_found tt tt);
      reflexivity.
  - reflexivity.
Defined.

(** The default form values, a scaler that refuses them. *)
Lemma inference_failure_is_reported_without_write_witness :
  let P1 := Faulty.refusing_scaler in
  let g := mkGlobals P1 (Some tt) (Some tt) (Some tt)
             "https://docs.google.com/spreadsheets/d/sim"
             (Some "model") (Some "scaler") in
  let i := mkInputs P1 (PInt 1000) (PInt 5) (PInt 200) (PInt 85) (PInt 75)
             (PInt 50) (PInt 10) (PInt 15) (PInt 200) (PInt 10) in
  let s := mkState (P := P1) Sim.w_header_only [] in
  all_zero i = false
  /\ predecir_y_guardar_sheets g i s
     = (Ret "❌ Error en predicción: Input contains NaN",
        mkState (P := P1) Sim.w_header_only
          [ @EvTransform P1 "scaler" (data_input i);
            @EvPrint P1 "❌ Error en predicción: Input contains NaN" ]).
Proof.
  intros P1 g i s. split; [ reflexivity | ].
  apply (proj1 (@inference_failure_is_reported_without_write P1 g i s
                  "model" "scaler" Faulty.feature_error
                  eq_refl eq_refl eq_refl)).
  reflexivity.
Defined.

(** The warning on an all-zero submission, the artifacts loaded. *)
Lemma fixed_messages_identify_their_cause_witness :
  predecir_y_guardar_sheets g_full i_zero s_up
  = (Ret "⚠️ Por favor ingrese valores válidos (no todos pueden ser 0)", s_up)
  /\ modelo g_full <> None /\ scaler g_full <> None /\ all_zero i_zero = true.
Proof.
  split; [ reflexivity | ].
  apply (proj1 (@fixed_messages_identify_their_cause PF g_full i_zero s_up
                  _ s_up eq_refl)).
  reflexivity.
Defined.

(** A clear, the service down. *)
Lemma clear_write_failure_is_reported_witness :
  exists s',
    limpiar_datos g_full s_down
    = (Ret "❌ Error limpiando datos: service unavailable", s')
    /\ world s' = Sim.w_offline.
Proof.
  eexists. split.
  - apply (@clear_write_failure_is_reported PF g_full s_down tt
             Sim.api_error Sim.w_offline);
      reflexivity.
  - reflexivity.
Defined.

(** A show, the service down. *)
Lemma show_read_failure_is_reported_witness :
  mostrar_datos_actuales g_full s_down
  = (Ret "❌ Error leyendo datos: service unavailable",
     @mkState PF Sim.w_offline [@EvRowValues PF tt 2]).
Proof.
  apply (@show_read_failure_is_reported PF g_full s_down tt
           Sim.api_error Sim.w_offline);
    reflexivity.
Defined.

(** A show on a row of thirteen cells. *)
Lemma show_displays_first_twelve_cells_witness :
  let w := Sim.mkWorld true true true
             [ Sim.header_text;
               [ "2024-05-17 09:30:07"; "1000"; "5"; "200"; "85"; "75"; "50";
                 "10"; "15"; "200"; "10"; "1,023"; "a note in column M" ] ] 7 in
  mostrar_datos_actuales g_full (Sim.start Sim.cfg_full w)
  = (Ret (resultado_datos "https://docs.google.com/spreadsheets/d/sim"
            "2024-05-17 09:30:07" "1000" "5" "200" "85" "75" "50"
            "10" "15" "200" "10" "1,023"),
     @mkState PF w [@EvRowValues PF tt 2]).
Proof.
  intros w.
  apply (@show_displays_first_twelve_cells PF g_full (Sim.start Sim.cfg_full w)
           tt w
           "2024-05-17 09:30:07" "1000" "5" "200" "85" "75" "50"
           "10" "15" "200" "10" "1,023" ["a note in column M"]);
    reflexivity.
Defined.


End Runs.
